(** * mal_scraper.anime: per-field extraction of an anime page

    A shallow embedding of [src/mal_scraper/anime.py].

    - A Python [str] is modelled by the [string] of its UTF-8 bytes.
      Comparing, searching, splitting and joining text are the same on
      the bytes as on the characters.  [str.strip], [str.lower] and [int]
      are computed here for ASCII text; on any other text they are what
      the interpreter makes of it, a parameter ([Interpreter]).
    - Python exceptions are modelled by the error monad [result]: a
      function that raises returns [Raise e].
    - The parsed document ([BeautifulSoup]) is modelled by the list of its
      [span] elements in document order, each one carrying what the
      scraper reads from it: its [itemprop] attribute, its [.string], its
      [.next_sibling] and the [.string] of [find_next('a')].
    - The collaborators that are not part of the module ([get_date], the
      builtin [eval], the HTTP fetch, the HTML parser and the clock) are
      section variables. *)

From Stdlib Require Import ZArith String Ascii List Bool Lia DecimalString.
From Stdlib Require Import DecimalPos DecimalZ.
From stdpp Require Import base option list strings gmap.

Local Open Scope string_scope.
Local Open Scope Z_scope.

(** ** Python string builtins *)

(** What the interpreter does where this development does not compute:
    [str.strip] and [str.lower] on a text with characters outside ASCII
    (the Unicode tables of white space and of letter case), and [int] on
    such a text or on one of more than 640 characters (Unicode digits,
    and the bound that an interpreter may put on the number of digits,
    which is never under 640). *)
Record Interpreter := mkInterpreter {
  strip_unicode : string -> string;
  lower_unicode : string -> string;
  int_other : string -> option Z
}.

Module PyStr.

Definition is_ascii_char (c : ascii) : bool := (N_of_ascii c <? 128)%N.

Fixpoint is_ascii (s : string) : bool :=
  match s with
  | EmptyString => true
  | String c s' => is_ascii_char c && is_ascii s'
  end.

(** [str.isspace] on one ASCII character: TAB, LF, VT, FF, CR, the four
    separators FS, GS, RS, US, and the space. *)
Definition ascii_isspace (c : ascii) : bool :=
  let n := N_of_ascii c in
  ((9 <=? n) && (n <=? 13) || (28 <=? n) && (n <=? 32))%N.

Fixpoint ascii_lstrip (s : string) : string :=
  match s with
  | EmptyString => EmptyString
  | String c s' => if ascii_isspace c then ascii_lstrip s' else s
  end.

Fixpoint ascii_rstrip (s : string) : string :=
  match s with
  | EmptyString => EmptyString
  | String c s' =>
      match ascii_rstrip s' with
      | EmptyString =>
          if ascii_isspace c then EmptyString else String c EmptyString
      | r => String c r
      end
  end.

Definition ascii_strip (s : string) : string :=
  ascii_rstrip (ascii_lstrip s).

(** [s.strip()] *)
Definition strip (py : Interpreter) (s : string) : string :=
  if is_ascii s then ascii_strip s else strip_unicode py s.

Definition ascii_lower_char (c : ascii) : ascii :=
  let n := N_of_ascii c in
  if ((65 <=? n) && (n <=? 90))%N then ascii_of_N (n + 32) else c.

Fixpoint ascii_lower (s : string) : string :=
  match s with
  | EmptyString => EmptyString
  | String c s' => String (ascii_lower_char c) (ascii_lower s')
  end.

(** [s.lower()] *)
Definition lower (py : Interpreter) (s : string) : string :=
  if is_ascii s then ascii_lower s else lower_unicode py s.

(** [s.startswith(p)], returning the remainder. *)
Fixpoint strip_prefix (p s : string) : option string :=
  match p, s with
  | EmptyString, _ => Some s
  | String a p', String b s' =>
      if Ascii.eqb a b then strip_prefix p' s' else None
  | String _ _, EmptyString => None
  end.

(** [sub in s] *)
Fixpoint contains (sub s : string) : bool :=
  match strip_prefix sub s with
  | Some _ => true
  | None =>
      match s with
      | EmptyString => false
      | String _ s' => contains sub s'
      end
  end.

(** The leftmost occurrence of [sep] in [s]: the text before it and the
    text after it. *)
Fixpoint find_sep (sep s : string) : option (string * string) :=
  match strip_prefix sep s with
  | Some rest => Some (EmptyString, rest)
  | None =>
      match s with
      | EmptyString => None
      | String c s' =>
          match find_sep sep s' with
          | Some (a, rest) => Some (String c a, rest)
          | None => None
          end
      end
  end.

Fixpoint split_fuel (fuel : nat) (sep s : string) : list string :=
  match fuel with
  | O => [s]
  | S fuel' =>
      match find_sep sep s with
      | Some (a, rest) => a :: split_fuel fuel' sep rest
      | None => [s]
      end
  end.

(** [s.split(sep)] for a non-empty separator: the pieces between the
    non-overlapping occurrences of [sep], scanned from the left.  Every
    occurrence consumes at least one character, so [length s] steps are
    enough. *)
Definition split (sep s : string) : list string :=
  split_fuel (String.length s) sep s.

Definition is_digit (c : ascii) : bool :=
  let n := N_of_ascii c in ((48 <=? n) && (n <=? 57))%N.

Definition digit_value (c : ascii) : Z := Z.of_N (N_of_ascii c) - 48.

(** Digits with single underscores between them ([1_000]). *)
Fixpoint digits (acc : Z) (after_digit : bool) (s : string) : option Z :=
  match s with
  | EmptyString => if after_digit then Some acc else None
  | String c s' =>
      if is_digit c then digits (10 * acc + digit_value c) true s'
      else if Ascii.eqb c "_" && after_digit then digits acc false s'
      else None
  end.

(** [int] on an ASCII text, base ten: surrounding white space, an
    optional sign, then digits. *)
Definition ascii_int (s : string) : option Z :=
  match ascii_strip s with
  | String "+" s' => digits 0 false s'
  | String "-" s' => Z.opp <$> digits 0 false s'
  | s' => digits 0 false s'
  end.

(** [int(s)] on a [str]; [None] stands for [ValueError]. *)
Definition int (py : Interpreter) (s : string) : option Z :=
  if is_ascii s && (String.length s <=? 640)%nat then ascii_int s
  else int_other py s.

(** ['{:d}'.format(n)] *)
Definition format_d (n : Z) : string := NilZero.string_of_int (Z.to_int n).

End PyStr.

(** ** Values, exceptions and the error monad *)

Record Date := mkDate { date_year : Z; date_month : Z; date_day : Z }.

(** A [bs4.ResultSet]: a list of elements, shown by their tag names. *)
Definition ResultSet := list string.

(** The Python values that end up in the anime record. *)
Inductive pyval :=
  | PyNone
  | PyStr (s : string)
  | PyInt (n : Z)
  | PyDate (d : Date)
  | PyTuple (a b : pyval)
  | PyResultSet (tags : ResultSet).

(** The exception classes the module can meet.  [MissingTagError] and
    [ParseError] are the module's own (from [.exceptions]); the others are
    builtins raised by the operations on a tag, a string or by [eval]. *)
Inductive exn :=
  | MissingTagError (tag : string)
  | ParseError (tag : string) (error : string)
  | ValueError
  | TypeError
  | AttributeError
  | IndexError
  | SyntaxError
  | OtherException (name : string).

(** Modelled from the spec: the class hierarchy of [exceptions.py], which
    is not among the sources.  The spec has both error kinds caught by the
    handler [except ParseError] of the extraction table, so
    [MissingTagError] is a subclass of [ParseError]. *)
Definition isinstance_ParseError (e : exn) : bool :=
  match e with
  | MissingTagError _ | ParseError _ _ => true
  | _ => false
  end.

Definition isinstance_ValueError (e : exn) : bool :=
  match e with
  | ValueError => true
  | _ => false
  end.

Inductive result (A : Type) :=
  | Ok (a : A)
  | Raise (e : exn).
Arguments Ok {A} a.
Arguments Raise {A} e.

#[global] Instance result_ret : MRet result := @Ok.
#[global] Instance result_bind : MBind result := fun A B f m =>
  match m with
  | Ok a => f a
  | Raise e => Raise e
  end.
#[global] Instance result_fmap : FMap result := fun A B f m =>
  match m with
  | Ok a => Ok (f a)
  | Raise e => Raise e
  end.

(** ** The parsed document *)

(** [tag.next_sibling]: nothing, a text node, or another element.  An
    element is observed through what [element.strip] finds: the attribute
    lookup is [element.find('strip')], that is [None], or the first
    [<strip>] element inside, given by the elements that calling it (its
    [find_all()]) returns. *)
Inductive Sibling :=
  | NoSibling
  | TextSibling (text : string)
  | TagSibling (strip_element : option ResultSet).

(** An [a] element, observed through its [.string]. *)
Record Anchor := mkAnchor { a_string : option string }.

Record Span := mkSpan {
  span_itemprop : option string;
  span_string : option string;
  next_sibling : Sibling;
  find_next_a : option Anchor
}.

Definition Soup := list Span.

(** [soup.find('span', itemprop=v)]: the first match in document order. *)
Definition find_span_itemprop (soup : Soup) (v : string) : option Span :=
  List.find (fun sp => bool_decide (span_itemprop sp = Some v)) soup.

(** [soup.find('span', string=label)] *)
Definition find_span_string (soup : Soup) (label : string) : option Span :=
  List.find (fun sp => bool_decide (span_string sp = Some label)) soup.

(** A label span as the scraper expects it: no [itemprop], the label as
    its text. *)
Definition label_span (label : string) (sibling : Sibling)
    (a : option Anchor) : Span :=
  mkSpan None (Some label) sibling a.

(** What [pretag.next_sibling.strip()] returns: a text, or the elements
    of a [<strip>] element. *)
Inductive Stripped :=
  | Text (text : string)
  | Elements (tags : ResultSet).

(** [pretag.next_sibling.strip()]: [None] has no attribute [strip]; on a
    text node it is [str.strip]; on an element without a [<strip>] element
    inside, the attribute is [None] and the call of [None] is a
    [TypeError]; with one inside, the call returns its elements. *)
Definition next_sibling_strip (py : Interpreter) (pretag : Span)
  : result Stripped :=
  match next_sibling pretag with
  | NoSibling => Raise AttributeError
  | TextSibling text => Ok (Text (PyStr.strip py text))
  | TagSibling None => Raise TypeError
  | TagSibling (Some tags) => Ok (Elements tags)
  end.

(** A [str] method called on that result: a [ResultSet] has none. *)
Definition str_method (v : Stripped) : result string :=
  match v with
  | Text text => Ok text
  | Elements _ => Raise AttributeError
  end.

(** The result as a value of the record. *)
Definition stripped_value (v : Stripped) : pyval :=
  match v with
  | Text text => PyStr text
  | Elements tags => PyResultSet tags
  end.

(** [pretag.find_next('a').string] followed by a method call on it: both
    a missing link and a link without a single text child give [None],
    and the next attribute access raises. *)
Definition find_next_a_string (pretag : Span) : result string :=
  match find_next_a pretag with
  | None => Raise AttributeError
  | Some a =>
      match a_string a with
      | None => Raise AttributeError
      | Some s => Ok s
      end
  end.

Definition dquote : string := String (ascii_of_N 34) EmptyString.

(** ['... "%s" ...' % text] *)
Definition quoted (before text after : string) : string :=
  before +:+ dquote +:+ text +:+ dquote +:+ after.

(** ** The extraction functions *)

Definition _get_name (soup : Soup) : result pyval :=
  match find_span_itemprop soup "name" with
  | None => Raise (MissingTagError "name")
  | Some tag =>
      match span_string tag with
      | Some text => Ok (PyStr text)
      | None => Ok PyNone
      end
  end.

Definition _get_english_name (py : Interpreter) (soup : Soup)
  : result pyval :=
  match find_span_string soup "English:" with
  | None => Ok PyNone
  | Some pretag =>
      text ← next_sibling_strip py pretag; Ok (stripped_value text)
  end.

Definition _get_japanese_name (py : Interpreter) (soup : Soup)
  : result pyval :=
  match find_span_string soup "Japanese:" with
  | None => Ok PyNone
  | Some pretag =>
      text ← next_sibling_strip py pretag; Ok (stripped_value text)
  end.

Definition _get_format (py : Interpreter) (soup : Soup) : result pyval :=
  match find_span_string soup "Type:" with
  | None => Raise (MissingTagError "type")
  | Some pretag =>
      s ← find_next_a_string pretag; Ok (PyStr (PyStr.strip py s))
  end.

Definition _get_episodes (py : Interpreter) (soup : Soup) : result pyval :=
  match find_span_string soup "Episodes:" with
  | None => Raise (MissingTagError "episodes")
  | Some pretag =>
      stripped ← next_sibling_strip py pretag;
      text ← str_method stripped;
      let episodes_text := PyStr.lower py text in
      if String.eqb episodes_text "unknown" then Ok (PyInt 0)
      else
        match PyStr.int py episodes_text with
        | Some episodes_number => Ok (PyInt episodes_number)
        | None =>
            Raise (ParseError "episodes"
                     (quoted "Unable to convert text " episodes_text " to int"))
        end
  end.

(** The dictionary literal of [_get_airing_status]. *)
Definition airing_status_table : list (string * string) :=
  [("finished airing", "Finished Airing");
   ("currently airing", "Currently Airing")].

Fixpoint dict_get (d : list (string * string)) (k : string) : option string :=
  match d with
  | [] => None
  | (k', v) :: d' => if String.eqb k' k then Some v else dict_get d' k
  end.

Definition _get_airing_status (py : Interpreter) (soup : Soup)
  : result pyval :=
  match find_span_string soup "Status:" with
  | None => Raise (MissingTagError "status")
  | Some pretag =>
      stripped ← next_sibling_strip py pretag;
      text ← str_method stripped;
      let status_text := PyStr.lower py text in
      match dict_get airing_status_table status_text with
      | Some (String c s as status) => Ok (PyStr status)
      | _ =>
          Raise (ParseError "status"
                   (quoted "Unable to identify text " status_text EmptyString))
      end
  end.

Definition canonical_seasons : list string :=
  ["spring"; "summer"; "autumn"; "winter"].

Definition _get_airing_premiere (py : Interpreter) (soup : Soup)
  : result pyval :=
  match find_span_string soup "Premiered:" with
  | None => Ok PyNone
  | Some pretag =>
      s ← find_next_a_string pretag;
      match PyStr.split " " (PyStr.lower py s) with
      | [season; year] =>
          season' ←
            (if String.eqb season "fall" then Ok "autumn"
             else if bool_decide (season ∈ canonical_seasons) then Ok season
             else Raise (ParseError "premiered"
                           (quoted "Unable to identify season " season EmptyString)));
          match PyStr.int py year with
          | Some y => Ok (PyTuple (PyInt y) (PyStr season'))
          | None =>
              Raise (ParseError "premiered"
                       (quoted "Unable to identify year " year EmptyString))
          end
      | _ => Raise ValueError
      end
  end.

(** ** The extraction table and the fetcher *)

Record Response := mkResponse { status_code : Z; content : string }.

(** [requests.Response.ok]: no client or server error status. *)
Definition Response_ok (r : Response) : bool :=
  negb ((400 <=? status_code r) && (status_code r <? 600)).

(** [requests.Response.__bool__] returns [self.ok]: a response object is
    falsy exactly when its status is an error status. *)
Definition Response_bool (r : Response) : bool := Response_ok r.

Record RetrievalInfo := mkRetrievalInfo {
  info_success : bool;
  info_scraper_retrieved_at : Z;
  info_id_ref : Z
}.

(** What [retrieve_anime] returns: an integer, or the pair of
    dictionaries. *)
Inductive Retrieved :=
  | StatusCode (code : Z)
  | RetrievedPair (retrieval_info : RetrievalInfo) (info : gmap string pyval).

Definition get_url_from_id_ref (id_ref : Z) : string :=
  "http://myanimelist.net/anime/" +:+ PyStr.format_d id_ref.

(** The source text that [_get_date] hands to [eval]. *)
Definition get_date_call (date_text : string) : string :=
  "get_date('" +:+ date_text +:+ "')".

Section Collaborators.

(** The interpreter's Unicode tables and bound on digits. *)
Variable py : Interpreter.

(** [mal_utils.get_date]: a date, or an exception ([ValueError] on a
    malformed text).  The module reaches it only through [eval]. *)
Variable get_date : string -> result Date.

(** The builtin [eval] in the module's name space. *)
Variable py_eval : string -> result pyval.

(** [retry_on_fail(requests.get, url)]: a response, or nothing when the
    retries are exhausted. *)
Variable retry_on_fail_get : string -> option Response.

(** [BeautifulSoup(content, 'html.parser')] *)
Variable BeautifulSoup : string -> Soup.

(** [datetime.utcnow()] at the time of the call. *)
Variable utcnow : Z.

Definition _get_date (date_text : string) : result pyval :=
  py_eval (get_date_call date_text).

Definition _get_start_date (soup : Soup) : result pyval :=
  match find_span_string soup "Aired:" with
  | None => Raise (MissingTagError "aired")
  | Some pretag =>
      stripped ← next_sibling_strip py pretag;
      aired_text ← str_method stripped;
      match PyStr.split " to " aired_text with
      | start_text :: _ =>
          match _get_date start_text with
          | Ok start_date => Ok start_date
          | Raise e =>
              if isinstance_ValueError e
              then Raise (ParseError "airing start date"
                            (quoted "Cannot process text " start_text EmptyString))
              else Raise e
          end
      | [] => Raise IndexError
      end
  end.

(** On the elements of a [<strip>] element, [' to ' in aired_text] and
    [end_text == '?'] are false, and joining the list to the source text
    of [_get_date] is a [TypeError]. *)
Definition _get_end_date (soup : Soup) : result pyval :=
  match find_span_string soup "Aired:" with
  | None => Raise (MissingTagError "aired")
  | Some pretag =>
      stripped ← next_sibling_strip py pretag;
      match stripped with
      | Elements _ => Raise TypeError
      | Text aired_text =>
          end_text ←
            (if PyStr.contains " to " aired_text
             then match PyStr.split " to " aired_text with
                  | _ :: end_text :: _ => Ok end_text
                  | _ => Raise IndexError
                  end
             else Ok aired_text);
          if String.eqb end_text "?" then Ok PyNone
          else
            match _get_date end_text with
            | Ok end_date => Ok end_date
            | Raise e =>
                if isinstance_ValueError e
                then Raise (ParseError "airing end date"
                              (quoted "Cannot process text " end_text
                                 EmptyString))
                else Raise e
            end
      end
  end.

(** The dictionary [retrieve], in its insertion order. *)
Definition retrieve : list (string * (Soup -> result pyval)) :=
  [("name", _get_name);
   ("name_english", _get_english_name py);
   ("name_japanese", _get_japanese_name py);
   ("format", _get_format py);
   ("episodes", _get_episodes py);
   ("airing_status", _get_airing_status py);
   ("airing_started", _get_start_date);
   ("airing_finished", _get_end_date);
   ("airing_premiere", _get_airing_premiere py)].

(** One turn of the loop over [retrieve.items()], on the two locals
    [retrieved] and [failed_tags]. *)
Definition process_tag (soup : Soup)
    (st : gmap string pyval * list string)
    (item : string * (Soup -> result pyval))
  : result (gmap string pyval * list string) :=
  let '(retrieved, failed_tags) := st in
  let '(tag, func) := item in
  match func soup with
  | Ok result => Ok (<[tag := result]> retrieved, failed_tags)
  | Raise e =>
      if isinstance_ParseError e
      then Ok (<[tag := PyNone]> retrieved, (failed_tags ++ [tag])%list)
      else Raise e
  end.

Fixpoint process_items (soup : Soup)
    (items : list (string * (Soup -> result pyval)))
    (st : gmap string pyval * list string)
  : result (gmap string pyval * list string) :=
  match items with
  | [] => Ok st
  | item :: items' =>
      st' ← process_tag soup st item; process_items soup items' st'
  end.

(** The locals [(retrieved, failed_tags)] when the loop is over. *)
Definition _process_soup_loop (soup : Soup)
  : result (gmap string pyval * list string) :=
  process_items soup retrieve (∅, []).

Definition _process_soup (soup : Soup)
  : result (bool * gmap string pyval) :=
  '(retrieved, failed_tags) ← _process_soup_loop soup;
  let success := negb (match failed_tags with [] => false | _ => true end) in
  Ok (success, retrieved).

Definition retrieve_anime (id_ref : Z) : result Retrieved :=
  let url := get_url_from_id_ref id_ref in
  match retry_on_fail_get url with
  | None => Ok (StatusCode 404)
  | Some response =>
      if negb (Response_bool response) then Ok (StatusCode 404)
      else if negb (Response_ok response)
      then Ok (StatusCode (status_code response))
      else
        let soup := BeautifulSoup (content response) in
        '(success, info) ← _process_soup soup;
        let retrieval_info :=
          {| info_success := success;
             info_scraper_retrieved_at := utcnow;
             info_id_ref := id_ref |} in
        Ok (RetrievedPair retrieval_info info)
  end.

End Collaborators.

(** ** Notions used to state the properties *)

(** A text that can stand between the quotes of a Python string literal
    unchanged: no quote, no backslash, no line break, no NUL. *)
Definition plain_char (c : ascii) : bool :=
  let n := N_of_ascii c in
  negb ((n =? 39) || (n =? 92) || (n =? 10) || (n =? 13) || (n =? 0))%N.

Fixpoint plain_literal (s : string) : bool :=
  match s with
  | EmptyString => true
  | String c s' => plain_char c && plain_literal s'
  end.

(** What the interpreter guarantees about [eval] on the source text of
    [_get_date]: when the date text is a plain literal, the call is
    [get_date] applied to that text. *)
Definition eval_calls_get_date
    (get_date : string -> result Date) (py_eval : string -> result pyval)
  : Prop :=
  forall text, plain_literal text = true ->
    py_eval (get_date_call text) = PyDate <$> get_date text.

(** The date parser applied to a text, with the conversion of
    [ValueError] that [_get_start_date] and [_get_end_date] make. *)
Definition parse_date (get_date : string -> result Date)
    (what text : string) : result pyval :=
  match get_date text with
  | Ok d => Ok (PyDate d)
  | Raise e =>
      if isinstance_ValueError e
      then Raise (ParseError what (quoted "Cannot process text " text EmptyString))
      else Raise e
  end.

(** [first_occurrence sep s a rest]: [s] is [a], then [sep], then [rest],
    and no occurrence of [sep] in [s] starts further left. *)
Definition first_occurrence (sep s a rest : string) : Prop :=
  s = a +:+ sep +:+ rest /\
  forall a' rest', s = a' +:+ sep +:+ rest' ->
    (String.length a <= String.length a')%nat.

Definition no_occurrence (sep s : string) : Prop :=
  forall a rest, s <> a +:+ sep +:+ rest.


(** The value stored for a field, and whether the field is listed as
    failed, from the outcome of its extraction function. *)
Definition field_value (r : result pyval) : pyval :=
  match r with
  | Ok v => v
  | Raise _ => PyNone
  end.

Definition field_failed (r : result pyval) : bool :=
  match r with
  | Ok _ => false
  | Raise _ => true
  end.

(** The outcome is a value or an exception that the table catches. *)
Definition handled (r : result pyval) : bool :=
  match r with
  | Ok _ => true
  | Raise e => isinstance_ParseError e
  end.

Definition retrieved_of (soup : Soup)
    (items : list (string * (Soup -> result pyval)))
    (r0 : gmap string pyval) : gmap string pyval :=
  foldl (fun m it => <[it.1 := field_value (it.2 soup)]> m) r0 items.

Fixpoint failed_of (soup : Soup)
    (items : list (string * (Soup -> result pyval))) : list string :=
  match items with
  | [] => []
  | it :: items' =>
      if field_failed (it.2 soup) then it.1 :: failed_of soup items'
      else failed_of soup items'
  end.

Definition field_names : list string :=
  ["name"; "name_english"; "name_japanese"; "format"; "episodes";
   "airing_status"; "airing_started"; "airing_finished"; "airing_premiere"].

(** The label each extraction function looks for ([name] looks for the
    [itemprop] attribute instead). *)
Definition field_labels : list (string * string) :=
  [("name_english", "English:"); ("name_japanese", "Japanese:");
   ("format", "Type:"); ("episodes", "Episodes:");
   ("airing_status", "Status:"); ("airing_started", "Aired:");
   ("airing_finished", "Aired:"); ("airing_premiere", "Premiered:")].

(** ** Sample collaborators and documents *)

Module Sample.

(** A stand-in for the interpreter's tables and bound: the sample pages
    hold short ASCII text only, which never consults it. *)
Definition python : Interpreter :=
  mkInterpreter (fun s => s) (fun s => s) (fun _ => None).

Definition month_table : list (string * Z) :=
  [("Jan", 1); ("Feb", 2); ("Mar", 3); ("Apr", 4); ("May", 5); ("Jun", 6);
   ("Jul", 7); ("Aug", 8); ("Sep", 9); ("Oct", 10); ("Nov", 11); ("Dec", 12)].

Fixpoint month_number (t : list (string * Z)) (m : string) : option Z :=
  match t with
  | [] => None
  | (k, v) :: t' => if String.eqb k m then Some v else month_number t' m
  end.

Definition leap_year (y : Z) : bool :=
  ((y mod 4 =? 0) && negb (y mod 100 =? 0)) || (y mod 400 =? 0).

Definition days_in_month (y m : Z) : Z :=
  if m =? 2 then (if leap_year y then 29 else 28)
  else if (m =? 4) || (m =? 6) || (m =? 9) || (m =? 11) then 30
  else 31.

(** Modelled from the spec: the date parser [mal_utils.get_date], which is
    not among the sources; the spec describes it as returning a date value
    or raising on a malformed text, and gives the text [Apr 3, 2015] for
    the third of April 2015.  This stand-in reads that one format, month
    name, day, comma, year, and raises [ValueError] on anything else. *)
Definition get_date (text : string) : result Date :=
  match PyStr.split " " text with
  | [mon; day; year] =>
      match month_number month_table mon, PyStr.find_sep "," day,
            PyStr.digits 0 false year with
      | Some m, Some (d, EmptyString), Some y =>
          match PyStr.digits 0 false d with
          | Some d' =>
              if (1 <=? y) && (y <=? 9999) && (1 <=? d')
                 && (d' <=? days_in_month y m)
              then Ok (mkDate y m d') else Raise ValueError
          | None => Raise ValueError
          end
      | _, _, _ => Raise ValueError
      end
  | _ => Raise ValueError
  end.


Fixpoint strip_suffix (suf s : string) : option string :=
  if String.eqb s suf then Some EmptyString
  else
    match s with
    | EmptyString => None
    | String c s' => String c <$> strip_suffix suf s'
    end.

(** A stand-in for the builtin [eval]: it evaluates the call of
    [get_date] on one plain string literal and rejects every other source
    text. *)
Definition py_eval (get_date : string -> result Date) (source : string)
  : result pyval :=
  match PyStr.strip_prefix "get_date('" source with
  | Some rest =>
      match strip_suffix "')" rest with
      | Some text =>
          if plain_literal text then PyDate <$> get_date text
          else Raise SyntaxError
      | None => Raise SyntaxError
      end
  | None => Raise SyntaxError
  end.

Definition title_span (title : string) : Span :=
  mkSpan (Some "name") (Some title) NoSibling None.

Definition link (text : string) : option Anchor :=
  Some (mkAnchor (Some text)).

(** The spans of a page, with the episode and aired texts left open. *)
Definition page_head : Soup :=
  [title_span "Cowboy Bebop";
   label_span "English:" (TextSibling " Cowboy Bebop ") None;
   label_span "Japanese:" (TextSibling " Kaubooi Bibappu ") None].

Definition page_tail (episodes : Sibling) (aired : string) : Soup :=
  [label_span "Episodes:" episodes None;
   label_span "Status:" (TextSibling " Finished Airing ") None;
   label_span "Aired:" (TextSibling aired) None;
   label_span "Premiered:" NoSibling (link "Spring 1998")].

Definition page (episodes : Sibling) (aired : string) : Soup :=
  (page_head ++ label_span "Type:" NoSibling (link "TV")
     :: page_tail episodes aired)%list.

Definition soup : Soup :=
  page (TextSibling " 26 ") " Apr 3, 1998 to Apr 24, 1999 ".

(** The same page without the spans of one label. *)
Definition without (label : string) (s : Soup) : Soup :=
  List.filter (fun sp => negb (bool_decide (span_string sp = Some label))) s.

Definition process (s : Soup) : result (bool * gmap string pyval) :=
  _process_soup python (py_eval get_date) s.

(** The record that the loop builds on a page. *)
Definition record (s : Soup) : gmap string pyval :=
  retrieved_of s (retrieve python (py_eval get_date)) ∅.

Definition failures (s : Soup) : list string :=
  failed_of s (retrieve python (py_eval get_date)).

(** A page whose aired text has two separators. *)
Definition aired_twice : Soup :=
  page (TextSibling " 26 ") "Apr 3, 2015 to Apr 4, 2015 to ?".

(** Pages whose episode count is not a number, and is not there. *)
Definition bad_episodes : Soup :=
  page (TextSibling "abc") "Apr 3, 2015 to ?".

Definition no_episode_text : Soup :=
  page NoSibling "Apr 3, 2015 to ?".

Definition episodes_error : exn :=
  ParseError "episodes" (quoted "Unable to convert text " "abc" " to int").

(** A fetch that ends with a server error. *)
Definition server_error (url : string) : option Response :=
  Some (mkResponse 500 "Internal Server Error").

(** The page of the spec's example for the aired text. *)
Definition still_airing : Soup :=
  page (TextSibling "Unknown") "Apr 3, 2015 to ?".

End Sample.

(** ** Further notions and sample documents *)

(** The fields whose extraction function can raise an error of the
    parsing domain, in the order of the table. *)
Definition failable_fields : list string :=
  ["name"; "format"; "episodes"; "airing_status"; "airing_started";
   "airing_finished"; "airing_premiere"].

(** The labelled fields whose function raises when the label is absent. *)
Definition mandatory_labels : list (string * string) :=
  [("format", "Type:"); ("episodes", "Episodes:");
   ("airing_status", "Status:"); ("airing_started", "Aired:");
   ("airing_finished", "Aired:")].

(** The fields read from the text node that follows their label. *)
Definition sibling_labels : list (string * string) :=
  [("name_english", "English:"); ("name_japanese", "Japanese:");
   ("episodes", "Episodes:"); ("airing_status", "Status:");
   ("airing_started", "Aired:"); ("airing_finished", "Aired:")].

(** The fields read from the link that follows their label. *)
Definition link_labels : list (string * string) :=
  [("format", "Type:"); ("airing_premiere", "Premiered:")].

(** The value of a title span. *)
Definition title_value (sp : Span) : pyval :=
  match span_string sp with
  | Some text => PyStr text
  | None => PyNone
  end.

Module Pages.

(** A page with two title spans. *)
Definition two_titles : Soup :=
  (label_span "English:" (TextSibling "Bebop") None
   :: Sample.title_span "Cowboy Bebop" :: Sample.title_span "Other"
   :: nil)%list.

(** A page whose [Type:] label has no link after it. *)
Definition no_link : Soup :=
  (Sample.page_head ++ label_span "Type:" NoSibling None
     :: Sample.page_tail (TextSibling " 26 ") "Apr 3, 2015 to ?")%list.

(** A page whose premiere link holds a season and no year. *)
Definition season_only : Soup :=
  (Sample.page_head ++
   [label_span "Premiered:" NoSibling (Sample.link "Fall")])%list.

(** A page whose [Status:] label has nothing after it. *)
Definition no_status_text : Soup :=
  (Sample.page_head ++ [label_span "Status:" NoSibling None])%list.


(** A page whose English name is followed by an element that has a
    [<strip>] element inside, with two elements in it. *)
Definition strip_element : Soup :=
  [Sample.title_span "Cowboy Bebop";
   label_span "English:" (TagSibling (Some ["b"; "i"])) None].

(** A film: one aired date. *)
Definition film : Soup :=
  Sample.page (TextSibling " 1 ") " Sep 1, 2001 ".

(** The collaborators of the fetcher on a page that is served. *)
Definition served (url : string) : option Response :=
  Some (mkResponse 200 "<html>").

Definition exhausted (url : string) : option Response := None.

Definition parse (soup : Soup) (content : string) : Soup := soup.

Definition fetch (soup : Soup) (id_ref : Z) : result Retrieved :=
  retrieve_anime Sample.python (Sample.py_eval Sample.get_date) served (parse soup)
    1478217600 id_ref.

End Pages.

(** ** The string builtins on examples *)

Example strip_ex py : PyStr.strip py "  12 episodes  " = "12 episodes".
Proof. reflexivity. Qed.
Example split_ex :
  PyStr.split " to " "Apr 3, 2015 to ?" = ["Apr 3, 2015"; "?"].
Proof. reflexivity. Qed.
Example split_ex2 : PyStr.split " to " "a to b to c" = ["a"; "b"; "c"].
Proof. reflexivity. Qed.
Example split_ex3 : PyStr.split " " "fall  2014" = ["fall"; EmptyString; "2014"].
Proof. reflexivity. Qed.
Example split_ex4 : PyStr.split " to " EmptyString = [EmptyString].
Proof. reflexivity. Qed.
Example int_ex py : PyStr.int py "12" = Some 12.
Proof. reflexivity. Qed.
Example int_ex2 py : PyStr.int py "-1_0" = Some (-10).
Proof. reflexivity. Qed.
Example int_ex3 py : PyStr.int py "abc" = None.
Proof. reflexivity. Qed.
Example int_ex4 py : PyStr.int py EmptyString = None.
Proof. reflexivity. Qed.
Example format_ex : PyStr.format_d 1 = "1" /\ PyStr.format_d 0 = "0" /\ PyStr.format_d (-12) = "-12".
Proof. repeat split; reflexivity. Qed.

(** ** Facts about the string builtins *)

Module PyStrFacts.
Import PyStr.

Lemma append_nil (b : string) : EmptyString +:+ b = b.
Proof. reflexivity. Qed.

Lemma append_cons (c : ascii) (a b : string) :
  String c a +:+ b = String c (a +:+ b).
Proof. reflexivity. Qed.

Ltac sapp := rewrite ?append_cons, ?append_nil.
Tactic Notation "sapp" "in" hyp(H) := rewrite ?append_cons, ?append_nil in H.

Lemma app_length (a b : string) :
  String.length (a +:+ b) = (String.length a + String.length b)%nat.
Proof. induction a as [|c a IH]; sapp; simpl; [done | by rewrite IH]. Qed.

Lemma app_assoc (a b c : string) : (a +:+ b) +:+ c = a +:+ (b +:+ c).
Proof. induction a as [|x a IH]; sapp; [done | by rewrite IH]. Qed.

Lemma strip_prefix_Some (p s r : string) :
  strip_prefix p s = Some r <-> s = p +:+ r.
Proof.
  revert s. induction p as [|a p IH]; intros s; sapp; simpl.
  - split; [by intros [= ->] | by intros ->].
  - destruct s as [|b s].
    + split; intros H; discriminate H.
    + destruct (Ascii.eqb_spec a b) as [->|Hne].
      * rewrite IH. split; [by intros -> | by intros [= ->]].
      * split; [done | intros [= -> _]; by destruct Hne].
Qed.

Lemma strip_prefix_app (p r : string) : strip_prefix p (p +:+ r) = Some r.
Proof. by apply strip_prefix_Some. Qed.

Lemma find_sep_sound (sep s a rest : string) :
  find_sep sep s = Some (a, rest) -> first_occurrence sep s a rest.
Proof.
  revert a rest. induction s as [|c s IH]; intros a rest; simpl.
  - destruct (strip_prefix sep EmptyString) as [r|] eqn:Hp; [|done].
    intros [= <- <-]. apply strip_prefix_Some in Hp.
    split; [done | simpl; lia].
  - destruct (strip_prefix sep (String c s)) as [r|] eqn:Hp.
    + intros [= <- <-]. apply strip_prefix_Some in Hp.
      split; [done | simpl; lia].
    + destruct (find_sep sep s) as [[a0 r0]|] eqn:Hf; [|done].
      intros [= <- <-]. destruct (IH _ _ eq_refl) as [Hs Hmin].
      split; [sapp; by rewrite Hs |].
      intros [|c' a'] rest' Heq; sapp in Heq.
      * apply strip_prefix_Some in Heq. congruence.
      * injection Heq as _ Heq. simpl. apply Hmin in Heq. lia.
Qed.

Lemma find_sep_None (sep s : string) :
  find_sep sep s = None <-> no_occurrence sep s.
Proof.
  split.
  - induction s as [|c s IH]; simpl.
    + destruct (strip_prefix sep EmptyString) eqn:Hp; [done|].
      intros _ [|c' a] rest Heq; sapp in Heq; [|done].
      apply strip_prefix_Some in Heq. congruence.
    + destruct (strip_prefix sep (String c s)) eqn:Hp; [done|].
      destruct (find_sep sep s) as [[a0 r0]|] eqn:Hf; [done|].
      intros _ [|c' a] rest Heq; sapp in Heq.
      * apply strip_prefix_Some in Heq. congruence.
      * injection Heq as _ Heq. by apply (IH eq_refl a rest).
  - intros Hno. destruct (find_sep sep s) as [[a rest]|] eqn:Hf; [|done].
    apply find_sep_sound in Hf as [Hs _]. by destruct (Hno a rest).
Qed.

Lemma app_inj_length (a a' b b' : string) :
  a +:+ b = a' +:+ b' -> String.length a = String.length a' ->
  a = a' /\ b = b'.
Proof.
  revert a'. induction a as [|c a IH]; intros [|c' a']; sapp; simpl; try done.
  intros [= -> Heq] [= Hlen]. destruct (IH _ Heq Hlen) as [-> ->]. done.
Qed.

Lemma app_inv_head (a b b' : string) : a +:+ b = a +:+ b' -> b = b'.
Proof. intros H. by apply app_inj_length in H as [_ ?]. Qed.

Lemma find_sep_first (sep s a rest : string) :
  find_sep sep s = Some (a, rest) <-> first_occurrence sep s a rest.
Proof.
  split; [apply find_sep_sound|].
  intros [Hs Hmin].
  destruct (find_sep sep s) as [[a0 r0]|] eqn:Hf.
  - apply find_sep_sound in Hf as [Hs0 Hmin0].
    pose proof (Hmin _ _ Hs0). pose proof (Hmin0 _ _ Hs).
    rewrite Hs0 in Hs.
    apply app_inj_length in Hs as [-> Hs]; [|lia].
    apply app_inv_head in Hs as ->. done.
  - apply find_sep_None in Hf. by destruct (Hf a rest).
Qed.

Lemma contains_find_sep (sep s : string) :
  contains sep s = true <-> is_Some (find_sep sep s).
Proof.
  induction s as [|c s IH]; simpl.
  - destruct (strip_prefix sep EmptyString).
    + split; [by intros _; eexists | done].
    + split; [done | by intros [? ?]].
  - destruct (strip_prefix sep (String c s)).
    + split; [by intros _; eexists | done].
    + rewrite IH. destruct (find_sep sep s) as [[a r]|].
      * split; intros _; by eexists.
      * split; by intros [? ?].
Qed.

Lemma contains_false (sep s : string) :
  contains sep s = false <-> no_occurrence sep s.
Proof.
  rewrite <- find_sep_None. pose proof (contains_find_sep sep s) as H.
  destruct (contains sep s), (find_sep sep s) as [p|]; split; try done.
  - intros _. assert (is_Some (@None (string * string))) as [? ?]; [|done].
    by apply H.
  - intros _. assert (false = true); [|done]. apply H. by eexists.
Qed.

Lemma find_sep_length (sep s a rest : string) :
  find_sep sep s = Some (a, rest) ->
  String.length s = (String.length a + String.length sep + String.length rest)%nat.
Proof.
  intros [-> _]%find_sep_sound. rewrite !app_length. lia.
Qed.

Lemma split_fuel_enough (sep : string) (n m : nat) (s : string) :
  sep <> EmptyString ->
  (String.length s <= n)%nat -> (String.length s <= m)%nat ->
  split_fuel n sep s = split_fuel m sep s.
Proof.
  intros Hsep. revert m s. induction n as [|n IH]; intros m s Hn Hm.
  - destruct s; [|simpl in Hn; lia]. destruct m; [done|]. simpl.
    destruct sep; [done|]. done.
  - destruct m as [|m].
    + destruct s; [|simpl in Hm; lia]. simpl. destruct sep; [done|]. done.
    + simpl. destruct (find_sep sep s) as [[a rest]|] eqn:Hf; [|done].
      apply find_sep_length in Hf. f_equal.
      assert (0 < String.length sep)%nat by (destruct sep; [done | simpl; lia]).
      apply IH; lia.
Qed.

(** The equation of [split]: cut at the leftmost occurrence and go on
    with the rest. *)
Lemma split_unfold (sep s : string) :
  sep <> EmptyString ->
  split sep s =
    match find_sep sep s with
    | Some (a, rest) => a :: split sep rest
    | None => [s]
    end.
Proof.
  intros Hsep. unfold split. destruct (find_sep sep s) as [[a rest]|] eqn:Hf.
  - pose proof (find_sep_length _ _ _ _ Hf) as Hlen.
    assert (0 < String.length sep)%nat by (destruct sep; [done | simpl; lia]).
    destruct (String.length s) as [|n] eqn:Hs; [lia|].
    simpl. rewrite Hf. f_equal. apply split_fuel_enough; [done | lia | lia].
  - destruct (String.length s); simpl; [done | by rewrite Hf].
Qed.

End PyStrFacts.

(** ** Facts about the loop of the extraction table *)

Section TableFacts.

Variable soup : Soup.

Implicit Types (items : list (string * (Soup -> result pyval))).
Implicit Types (r : gmap string pyval) (f : list string).

Lemma process_tag_handled r f tag func :
  handled (func soup) = true ->
  process_tag soup (r, f) (tag, func) =
    Ok (<[tag := field_value (func soup)]> r,
        (f ++ failed_of soup [(tag, func)])%list).
Proof.
  unfold process_tag, handled. simpl. destruct (func soup) as [v|e]; simpl.
  - intros _. by rewrite List.app_nil_r.
  - by intros ->.
Qed.

Lemma process_tag_unhandled r f tag func :
  handled (func soup) = false ->
  exists e, func soup = Raise e /\ isinstance_ParseError e = false /\
            process_tag soup (r, f) (tag, func) = Raise e.
Proof.
  unfold process_tag, handled. destruct (func soup) as [v|e]; [done|].
  intros He. exists e. by rewrite He.
Qed.

Lemma process_items_cons items item st :
  process_items soup (item :: items) st =
    match process_tag soup st item with
    | Ok st' => process_items soup items st'
    | Raise e => Raise e
    end.
Proof. reflexivity. Qed.

(** When every function of the table returns or raises an error of the
    parsing domain, the loop ends with the expected locals. *)
Lemma process_items_all_handled items r f :
  Forall (fun it => handled (it.2 soup) = true) items ->
  process_items soup items (r, f) =
    Ok (retrieved_of soup items r, (f ++ failed_of soup items)%list).
Proof.
  revert r f. induction items as [|[tag func] items IH]; intros r f Hall.
  - simpl. by rewrite List.app_nil_r.
  - apply Forall_cons in Hall as [Hh Hall]. simpl in Hh.
    rewrite process_items_cons, process_tag_handled by done.
    rewrite IH by done. unfold retrieved_of. simpl.
    destruct (field_failed (func soup)); simpl.
    + by rewrite <- List.app_assoc.
    + by rewrite List.app_nil_r.
Qed.

(** The loop raises exactly when some function raises an error outside
    the parsing domain; the first such error is the one raised. *)
Lemma process_items_Raise items st e :
  process_items soup items st = Raise e <->
  exists pre tag func post,
    items = (pre ++ (tag, func) :: post)%list /\
    Forall (fun it => handled (it.2 soup) = true) pre /\
    func soup = Raise e /\ isinstance_ParseError e = false.
Proof.
  revert st. induction items as [|[tag func] items IH]; intros [r f].
  - simpl. split; [done|]. intros (pre & ? & ? & ? & Heq & _).
    by destruct pre.
  - rewrite process_items_cons.
    destruct (handled (func soup)) eqn:Hh.
    + rewrite process_tag_handled by done. rewrite IH. split.
      * intros (pre & tag' & func' & post & -> & Hpre & Hf & He).
        exists ((tag, func) :: pre), tag', func', post.
        split; [done|]. split; [by constructor | done].
      * intros (pre & tag' & func' & post & Heq & Hpre & Hf & He).
        destruct pre as [|p pre]; simpl in Heq.
        -- simplify_eq. unfold handled in Hh.
           rewrite Hf in Hh. congruence.
        -- simplify_eq. apply Forall_cons in Hpre as [_ Hpre].
           by exists pre, tag', func', post.
    + destruct (process_tag_unhandled r f tag func Hh) as (e' & Hf & He & ->).
      split.
      * intros [= ->]. by exists [], tag, func, items.
      * intros (pre & tag' & func' & post & Heq & Hpre & Hf' & He').
        destruct pre as [|p pre]; simpl in Heq.
        -- simplify_eq. congruence.
        -- simplify_eq. apply Forall_cons in Hpre as [Hp _].
           simpl in Hp. congruence.
Qed.

Lemma process_items_Ok items r0 f0 r f :
  process_items soup items (r0, f0) = Ok (r, f) <->
  Forall (fun it => handled (it.2 soup) = true) items /\
  r = retrieved_of soup items r0 /\ f = (f0 ++ failed_of soup items)%list.
Proof.
  split.
  - intros Hok.
    assert (Forall (fun it => handled (it.2 soup) = true) items) as Hall.
    { apply Forall_forall. intros [tag func] Hin. simpl.
      destruct (handled (func soup)) eqn:Hh; [done|].
      apply list_elem_of_split in Hin as (l1 & l2 & ->).
      enough (exists e, process_items soup (l1 ++ (tag, func) :: l2) (r0, f0)
                        = Raise e) as [e He] by congruence.
      clear Hok. revert r0 f0.
      induction l1 as [|[t g] l1 IH]; intros r0 f0.
      - destruct (process_tag_unhandled r0 f0 tag func Hh) as (e & _ & _ & Ht).
        exists e. rewrite List.app_nil_l. by rewrite process_items_cons, Ht.
      - rewrite <- List.app_comm_cons. rewrite process_items_cons.
        destruct (process_tag soup (r0, f0) (t, g)) as [[r1 f1]|e]; [|by eexists].
        apply IH. }
    rewrite process_items_all_handled in Hok by done.
    by injection Hok as <- <-.
  - intros (Hall & -> & ->). by apply process_items_all_handled.
Qed.

Lemma retrieved_of_notin items r0 tag :
  tag ∉ items.*1 -> retrieved_of soup items r0 !! tag = r0 !! tag.
Proof.
  revert r0. induction items as [|[t g] items IH]; intros r0 Hnotin; [done|].
  apply not_elem_of_cons in Hnotin as [Hne Hnotin].
  unfold retrieved_of. simpl. fold (retrieved_of soup items (<[t:=field_value (g soup)]> r0)).
  rewrite IH by done. by rewrite lookup_insert_ne.
Qed.

(** With distinct keys, every key of the table holds the value of its own
    function. *)
Lemma retrieved_of_lookup items r0 tag func :
  NoDup items.*1 -> (tag, func) ∈ items ->
  retrieved_of soup items r0 !! tag = Some (field_value (func soup)).
Proof.
  revert r0. induction items as [|[t g] items IH]; intros r0 Hnd Hin.
  - by apply elem_of_nil in Hin.
  - apply NoDup_cons in Hnd as [Hnotin Hnd].
    unfold retrieved_of. simpl.
    fold (retrieved_of soup items (<[t:=field_value (g soup)]> r0)).
    apply elem_of_cons in Hin as [[= -> ->]|Hin].
    + rewrite retrieved_of_notin by done. by rewrite lookup_insert_eq.
    + by apply IH.
Qed.

#[local] Set Warnings "-clear-no-such-hyp".

Lemma retrieved_of_dom items r0 :
  dom (retrieved_of soup items r0) = dom r0 ∪ list_to_set items.*1.
Proof.
  revert r0. induction items as [|[t g] items IH]; intros r0.
  - unfold retrieved_of. simpl. set_solver.
  - unfold retrieved_of. simpl.
    fold (retrieved_of soup items (<[t:=field_value (g soup)]> r0)).
    rewrite IH, dom_insert_L. set_solver.
Qed.

Lemma failed_of_elem items tag :
  tag ∈ failed_of soup items <->
  exists func, (tag, func) ∈ items /\ field_failed (func soup) = true.
Proof.
  induction items as [|[t g] items IH]; simpl.
  - split; [by intros ?%elem_of_nil | by intros (? & ?%elem_of_nil & _)].
  - destruct (field_failed (g soup)) eqn:Hg.
    + rewrite elem_of_cons, IH. split.
      * intros [->|(func & Hin & Hf)].
        -- exists g. split; [by left | done].
        -- exists func. split; [by right | done].
      * intros (func & Hin & Hf). apply elem_of_cons in Hin as [[= -> ->]|Hin].
        -- by left.
        -- right. by exists func.
    + rewrite IH. split.
      * intros (func & Hin & Hf). exists func. split; [by right | done].
      * intros (func & Hin & Hf). apply elem_of_cons in Hin as [[= -> ->]|Hin].
        -- congruence.
        -- by exists func.
Qed.

Lemma failed_of_nil items :
  failed_of soup items = [] <->
  forall tag func, (tag, func) ∈ items -> field_failed (func soup) = false.
Proof.
  induction items as [|[t g] items IH]; simpl.
  - split; [|done]. intros _ tag func Hin. by apply elem_of_nil in Hin.
  - destruct (field_failed (g soup)) eqn:Hg.
    + split; [done|]. intros H. specialize (H t g). rewrite Hg in H.
      assert (true = false); [|done]. apply H. by left.
    + rewrite IH. split.
      * intros H tag func [[= -> ->]|Hin]%elem_of_cons; [done|].
        by apply (H tag func).
      * intros H tag func Hin. apply (H tag func). by right.
Qed.

Lemma table_function_unique items tag func func' :
  NoDup items.*1 -> (tag, func) ∈ items -> (tag, func') ∈ items ->
  func = func'.
Proof.
  induction items as [|[t g] items IH]; intros Hnd Hin Hin'.
  - by apply elem_of_nil in Hin.
  - apply NoDup_cons in Hnd as [Hnotin Hnd].
    apply elem_of_cons in Hin as [Hin|Hin], Hin' as [Hin'|Hin'].
    + congruence.
    + simplify_eq. destruct Hnotin.
      apply list_elem_of_fmap. by exists (t, func').
    + simplify_eq. destruct Hnotin.
      apply list_elem_of_fmap. by exists (t, func).
    + by apply IH.
Qed.

Lemma failed_of_own items tag func :
  NoDup items.*1 -> (tag, func) ∈ items ->
  tag ∈ failed_of soup items <-> field_failed (func soup) = true.
Proof.
  intros Hnd Hin. rewrite failed_of_elem. split.
  - intros (g & Hg & Hf).
    by rewrite (table_function_unique items tag func g Hnd Hin Hg).
  - intros Hf. by exists func.
Qed.

End TableFacts.

Lemma retrieve_keys py py_eval : (retrieve py py_eval).*1 = field_names.
Proof. reflexivity. Qed.

Lemma field_names_NoDup : NoDup field_names.
Proof. apply (bool_decide_unpack _). by vm_compute. Qed.

(** ** The extraction table: [_process_soup] *)

Lemma retrieve_NoDup py py_eval : NoDup (retrieve py py_eval).*1.
Proof. rewrite retrieve_keys. apply field_names_NoDup. Qed.

Lemma process_soup_Ok py py_eval soup success retrieved :
  _process_soup py py_eval soup = Ok (success, retrieved) <->
  exists failed_tags,
    _process_soup_loop py py_eval soup = Ok (retrieved, failed_tags) /\
    success = match failed_tags with [] => true | _ => false end.
Proof.
  unfold _process_soup.
  destruct (_process_soup_loop py py_eval soup) as [[r f]|e]; simpl.
  - split.
    + intros [= <- <-]. exists f. by destruct f.
    + intros (f' & [= <- <-] & ->). by destruct f.
  - split; [done | by intros (? & ? & _)].
Qed.

Lemma process_soup_Raise py py_eval soup e :
  _process_soup py py_eval soup = Raise e <->
  _process_soup_loop py py_eval soup = Raise e.
Proof.
  unfold _process_soup.
  destruct (_process_soup_loop py py_eval soup) as [[r f]|e'];
    unfold mbind, result_bind; simpl.
  - split; intros H; discriminate H.
  - split; intros [= ->]; reflexivity.
Qed.

Lemma process_soup_loop_Ok py py_eval soup retrieved failed_tags :
  _process_soup_loop py py_eval soup = Ok (retrieved, failed_tags) <->
  Forall (fun it => handled (it.2 soup) = true) (retrieve py py_eval) /\
  retrieved = retrieved_of soup (retrieve py py_eval) ∅ /\
  failed_tags = failed_of soup (retrieve py py_eval).
Proof. unfold _process_soup_loop. by rewrite process_items_Ok. Qed.

Lemma field_failed_false (r : result pyval) :
  field_failed r = false <-> exists v, r = Ok v.
Proof.
  destruct r as [v|e]; simpl; split; try done.
  - by exists v.
  - by intros [? ?].
Qed.

(** C1. When [_process_soup] returns its pair, [success] is true exactly
    when the failure list built by the loop is empty, and exactly when
    every one of the nine extraction functions returned a value. *)
Theorem process_soup_success_iff py py_eval soup success retrieved :
  _process_soup py py_eval soup = Ok (success, retrieved) ->
  exists failed_tags,
    _process_soup_loop py py_eval soup = Ok (retrieved, failed_tags) /\
    (success = true <-> failed_tags = []) /\
    (success = true <->
     forall tag func, (tag, func) ∈ retrieve py py_eval ->
       exists v, func soup = Ok v).
Proof.
  intros (f & Hloop & ->)%process_soup_Ok. exists f.
  split; [done|]. assert ((match f with [] => true | _ => false end) = true
                          <-> f = []) as Hf by (by destruct f).
  split; [done|]. rewrite Hf.
  apply process_soup_loop_Ok in Hloop as (_ & _ & ->).
  rewrite failed_of_nil. split.
  - intros H tag func Hin. apply field_failed_false. by apply (H tag func).
  - intros H tag func Hin. apply field_failed_false. by apply (H tag func).
Qed.

Lemma process_soup_success_iff_witness :
  Sample.process Sample.bad_episodes
  = Ok (false, Sample.record Sample.bad_episodes) /\
  exists failed_tags,
    _process_soup_loop Sample.python (Sample.py_eval Sample.get_date) Sample.bad_episodes
    = Ok (Sample.record Sample.bad_episodes, failed_tags) /\
    (false = true <-> failed_tags = []) /\
    (false = true <->
     forall tag func,
       (tag, func) ∈ retrieve Sample.python (Sample.py_eval Sample.get_date) ->
       exists v, func Sample.bad_episodes = Ok v).
Proof.
  split; [vm_compute; reflexivity|].
  apply (process_soup_success_iff _ _ Sample.bad_episodes false
           (Sample.record Sample.bad_episodes)).
  vm_compute. reflexivity.
Defined.


(** C2. The record returned by [_process_soup] has exactly the nine keys;
    a field whose function raised, and a field whose label (for [name],
    whose title element) is missing, holds [None]. *)
Theorem process_soup_nine_keys py py_eval soup success retrieved :
  _process_soup py py_eval soup = Ok (success, retrieved) ->
  dom retrieved = list_to_set field_names /\
  (forall tag func e, (tag, func) ∈ retrieve py py_eval ->
     func soup = Raise e -> retrieved !! tag = Some PyNone) /\
  (find_span_itemprop soup "name" = None ->
     retrieved !! "name" = Some PyNone) /\
  (forall tag label, (tag, label) ∈ field_labels ->
     find_span_string soup label = None ->
     retrieved !! tag = Some PyNone).
Proof.
  intros (f & Hloop & _)%process_soup_Ok.
  apply process_soup_loop_Ok in Hloop as (Hall & -> & _).
  assert (forall tag func, (tag, func) ∈ retrieve py py_eval ->
            retrieved_of soup (retrieve py py_eval) ∅ !! tag
            = Some (field_value (func soup))) as Hlook.
  { intros tag func Hin. apply retrieved_of_lookup; [apply retrieve_NoDup | done]. }
  split; [|split; [|split]].
  - rewrite retrieved_of_dom, retrieve_keys, dom_empty_L. by rewrite (left_id_L ∅ (∪)).
  - intros tag func e Hin He. rewrite (Hlook tag func Hin), He. done.
  - intros Hname. rewrite (Hlook "name" _get_name) by (by left).
    unfold _get_name. by rewrite Hname.
  - intros tag label Hin Hnone.
    assert (exists func, (tag, func) ∈ retrieve py py_eval /\
                         field_value (func soup) = PyNone) as (func & Hf & Hv).
    { unfold field_labels in Hin.
      repeat (apply elem_of_cons in Hin as [Hin|Hin]);
        try (by apply elem_of_nil in Hin); simplify_eq;
        eexists; (split; [unfold retrieve; repeat (first [by left | right]) |]);
        cbv beta delta [_get_english_name _get_japanese_name _get_format
                        _get_episodes _get_airing_status _get_start_date
                        _get_end_date _get_airing_premiere];
        by rewrite Hnone. }
    by rewrite (Hlook tag func Hf), Hv.
Qed.

Lemma process_soup_nine_keys_witness :
  Sample.process Sample.bad_episodes
  = Ok (false, Sample.record Sample.bad_episodes) /\
  dom (Sample.record Sample.bad_episodes) = list_to_set field_names /\
  Sample.record Sample.bad_episodes !! "episodes" = Some PyNone.
Proof.
  assert (Sample.process Sample.bad_episodes
          = Ok (false, Sample.record Sample.bad_episodes)) as H
    by (vm_compute; reflexivity).
  split; [exact H|].
  destruct (process_soup_nine_keys _ _ _ _ _ H) as (Hdom & Hraise & _).
  split; [exact Hdom|].
  apply (Hraise "episodes" (_get_episodes Sample.python) Sample.episodes_error).
  - unfold retrieve. repeat (first [by left | right]).
  - reflexivity.
Defined.


(** C3. An extraction function that raises a missing-tag or parse error is
    caught: the field is set to [None], its name is appended to the
    failure list, and the error is not what [_process_soup] raises.  An
    extraction function that raises any other exception is not caught:
    the loop turn raises it, [_process_soup] returns no pair, and when no
    earlier field raised such an exception it is the one that reaches the
    caller. *)
Theorem process_soup_catches_parse_errors_only py py_eval soup tag func e :
  (tag, func) ∈ retrieve py py_eval -> func soup = Raise e ->
  if isinstance_ParseError e then
    (forall retrieved failed_tags,
       process_tag soup (retrieved, failed_tags) (tag, func)
       = Ok (<[tag := PyNone]> retrieved, (failed_tags ++ [tag])%list)) /\
    _process_soup py py_eval soup <> Raise e /\
    (forall retrieved failed_tags,
       _process_soup_loop py py_eval soup = Ok (retrieved, failed_tags) ->
       retrieved !! tag = Some PyNone /\ tag ∈ failed_tags)
  else
    (forall st, process_tag soup st (tag, func) = Raise e) /\
    (exists e', _process_soup py py_eval soup = Raise e' /\
                isinstance_ParseError e' = false) /\
    (forall pre post,
       retrieve py py_eval = (pre ++ (tag, func) :: post)%list ->
       Forall (fun it => handled (it.2 soup) = true) pre ->
       _process_soup py py_eval soup = Raise e).
Proof.
  intros Hin He. destruct (isinstance_ParseError e) eqn:Hk.
  - split; [|split].
    + intros r f. unfold process_tag. by rewrite He, Hk.
    + rewrite process_soup_Raise. unfold _process_soup_loop.
      rewrite process_items_Raise.
      intros (_ & _ & _ & _ & _ & _ & _ & Hk'). congruence.
    + intros r f (_ & -> & ->)%process_soup_loop_Ok. split.
      * rewrite (retrieved_of_lookup soup _ ∅ tag func (retrieve_NoDup _ _) Hin).
        by rewrite He.
      * apply failed_of_elem. exists func. by rewrite He.
  - split; [|split].
    + intros [r f]. unfold process_tag. by rewrite He, Hk.
    + destruct (_process_soup py py_eval soup) as [[s r]|e'] eqn:Hp.
      * apply process_soup_Ok in Hp as (f & Hloop & _).
        apply process_soup_loop_Ok in Hloop as (Hall & _).
        rewrite Forall_forall in Hall. specialize (Hall _ Hin).
        simpl in Hall. unfold handled in Hall. rewrite He in Hall. congruence.
      * exists e'. split; [done|].
        apply process_soup_Raise in Hp. unfold _process_soup_loop in Hp.
        by apply process_items_Raise in Hp as (_ & _ & _ & _ & _ & _ & _ & ?).
    + intros pre post Heq Hpre. apply process_soup_Raise.
      unfold _process_soup_loop. apply process_items_Raise.
      by exists pre, tag, func, post.
Qed.

Lemma process_soup_catches_parse_errors_only_witness :
  (_get_episodes Sample.python Sample.bad_episodes = Raise Sample.episodes_error /\
   Sample.process Sample.bad_episodes <> Raise Sample.episodes_error) /\
  (_get_episodes Sample.python Sample.no_episode_text = Raise AttributeError /\
   Sample.process Sample.no_episode_text = Raise AttributeError).
Proof.
  assert (("episodes", (_get_episodes Sample.python))
          ∈ retrieve Sample.python (Sample.py_eval Sample.get_date)) as Hin.
  { unfold retrieve. repeat (first [by left | right]). }
  split; (split; [reflexivity|]).
  - exact (proj1 (proj2 (process_soup_catches_parse_errors_only
                           _ _ Sample.bad_episodes "episodes" (_get_episodes Sample.python)
                           Sample.episodes_error Hin eq_refl))).
  - apply (proj2 (proj2 (process_soup_catches_parse_errors_only
                           _ _ Sample.no_episode_text "episodes" (_get_episodes Sample.python)
                           AttributeError Hin eq_refl))
             [("name", _get_name); ("name_english", (_get_english_name Sample.python));
              ("name_japanese", (_get_japanese_name Sample.python)); ("format", (_get_format Sample.python))]
             [("airing_status", (_get_airing_status Sample.python));
              ("airing_started", _get_start_date Sample.python (Sample.py_eval Sample.get_date));
              ("airing_finished", _get_end_date Sample.python (Sample.py_eval Sample.get_date));
              ("airing_premiere", (_get_airing_premiere Sample.python))]).
    + reflexivity.
    + repeat constructor.
Defined.


(** C10. Every name in the failure list is a key whose value is [None];
    the converse fails: an optional field whose label is absent holds
    [None] and is not in the failure list. *)
Theorem failed_tags_are_null py py_eval soup retrieved failed_tags :
  _process_soup_loop py py_eval soup = Ok (retrieved, failed_tags) ->
  (forall tag, tag ∈ failed_tags -> retrieved !! tag = Some PyNone) /\
  (forall tag label,
     (tag, label) ∈ [("name_english", "English:");
                     ("name_japanese", "Japanese:");
                     ("airing_premiere", "Premiered:")] ->
     find_span_string soup label = None ->
     retrieved !! tag = Some PyNone /\ tag ∉ failed_tags).
Proof.
  intros (_ & -> & ->)%process_soup_loop_Ok. split.
  - intros tag (func & Hin & Hf)%failed_of_elem.
    rewrite (retrieved_of_lookup soup _ ∅ tag func (retrieve_NoDup _ _) Hin).
    by destruct (func soup).
  - intros tag label Hin Hnone.
    assert (exists func, (tag, func) ∈ retrieve py py_eval /\
                         func soup = Ok PyNone) as (func & Hf & Hv).
    { repeat (apply elem_of_cons in Hin as [Hin|Hin]);
        try (by apply elem_of_nil in Hin); simplify_eq;
        eexists; (split; [unfold retrieve; repeat (first [by left | right]) |]);
        cbv beta delta [_get_english_name _get_japanese_name
                        _get_airing_premiere];
        by rewrite Hnone. }
    split.
    + rewrite (retrieved_of_lookup soup _ ∅ tag func (retrieve_NoDup _ _) Hf).
      by rewrite Hv.
    + rewrite (failed_of_own soup _ tag func (retrieve_NoDup _ _) Hf).
      by rewrite Hv.
Qed.

Lemma failed_tags_are_null_witness :
  Sample.failures Sample.bad_episodes = ["episodes"] /\
  Sample.record Sample.bad_episodes !! "episodes" = Some PyNone /\
  Sample.record (Sample.without "English:" Sample.soup) !! "name_english"
  = Some PyNone /\
  "name_english" ∉ Sample.failures (Sample.without "English:" Sample.soup).
Proof.
  split; [reflexivity|]. split.
  - apply (proj1 (failed_tags_are_null Sample.python (Sample.py_eval Sample.get_date)
                    Sample.bad_episodes (Sample.record Sample.bad_episodes)
                    (Sample.failures Sample.bad_episodes)
                    ltac:(vm_compute; reflexivity))).
    by left.
  - apply (proj2 (failed_tags_are_null Sample.python (Sample.py_eval Sample.get_date)
                    (Sample.without "English:" Sample.soup)
                    (Sample.record (Sample.without "English:" Sample.soup))
                    (Sample.failures (Sample.without "English:" Sample.soup))
                    ltac:(vm_compute; reflexivity))
             "name_english" "English:").
    + by left.
    + reflexivity.
Defined.


(** ** A missing [Type:] label *)

Lemma find_insert (P : Span -> bool) (pre post : Soup) (sp : Span) :
  P sp = false ->
  List.find P (pre ++ sp :: post)%list = List.find P (pre ++ post)%list.
Proof.
  intros Hsp. induction pre as [|x pre IH]; simpl.
  - by rewrite Hsp.
  - by destruct (P x).
Qed.

Lemma find_span_string_insert pre post sp label :
  span_string sp <> Some label ->
  find_span_string (pre ++ sp :: post)%list label
  = find_span_string (pre ++ post)%list label.
Proof.
  intros Hne. unfold find_span_string. apply find_insert.
  by apply bool_decide_eq_false.
Qed.

Lemma find_span_itemprop_insert pre post sp v :
  span_itemprop sp <> Some v ->
  find_span_itemprop (pre ++ sp :: post)%list v
  = find_span_itemprop (pre ++ post)%list v.
Proof.
  intros Hne. unfold find_span_itemprop. apply find_insert.
  by apply bool_decide_eq_false.
Qed.

(** The functions of the table other than [_get_format] do not see a
    [Type:] label span. *)
Lemma other_fields_ignore_type_label py py_eval pre post sibling a tag func :
  (tag, func) ∈ retrieve py py_eval -> tag <> "format" ->
  func (pre ++ label_span "Type:" sibling a :: post)%list
  = func (pre ++ post)%list.
Proof.
  intros Hin Hne. unfold retrieve in Hin.
  repeat (apply elem_of_cons in Hin as [Hin|Hin]);
    try (by apply elem_of_nil in Hin); simplify_eq;
    cbv beta delta [_get_name _get_english_name _get_japanese_name
                    _get_episodes _get_airing_status _get_start_date
                    _get_end_date _get_airing_premiere];
    first [ by rewrite find_span_itemprop_insert
          | by rewrite find_span_string_insert ].
Qed.

(** C9. On a document without a [Type:] label whose other fields raise
    nothing outside the parsing domain, [_process_soup] returns
    [success = False], [format] is [None] and listed as failed, and every
    other field has the outcome that its own function gives on the
    document with a [Type:] label span put in, at any place. *)
Theorem missing_type_label_is_isolated py py_eval pre post :
  let soup := (pre ++ post)%list in
  find_span_string soup "Type:" = None ->
  (forall tag func, (tag, func) ∈ retrieve py py_eval -> tag <> "format" ->
     handled (func soup) = true) ->
  exists retrieved failed_tags,
    _process_soup py py_eval soup = Ok (false, retrieved) /\
    _process_soup_loop py py_eval soup = Ok (retrieved, failed_tags) /\
    retrieved !! "format" = Some PyNone /\
    "format" ∈ failed_tags /\
    forall sibling a,
      let soup' := (pre ++ label_span "Type:" sibling a :: post)%list in
      (forall tag func, (tag, func) ∈ retrieve py py_eval -> tag <> "format" ->
         func soup = func soup' /\
         retrieved !! tag = Some (field_value (func soup')) /\
         (tag ∈ failed_tags <-> field_failed (func soup') = true)) /\
      (forall success' retrieved' tag,
         _process_soup py py_eval soup' = Ok (success', retrieved') ->
         tag <> "format" -> retrieved !! tag = retrieved' !! tag).
Proof.
  intros soup Hnone Hwf.
  assert (_get_format py soup = Raise (MissingTagError "type")) as Hfmt.
  { unfold _get_format. by rewrite Hnone. }
  assert (("format", (_get_format py)) ∈ retrieve py py_eval) as Hfin.
  { unfold retrieve. repeat (first [by left | right]). }
  assert (Forall (fun it => handled (it.2 soup) = true) (retrieve py py_eval))
    as Hall.
  { apply Forall_forall. intros [tag func] Hin. simpl.
    destruct (decide (tag = "format")) as [->|Hne]; [|by apply (Hwf tag)].
    rewrite <- (table_function_unique _ _ _ _ (retrieve_NoDup py py_eval) Hfin Hin).
    by rewrite Hfmt. }
  pose proof (retrieve_NoDup py py_eval) as Hnd.
  exists (retrieved_of soup (retrieve py py_eval) ∅),
         (failed_of soup (retrieve py py_eval)).
  assert ("format" ∈ failed_of soup (retrieve py py_eval)) as Hfailed.
  { apply failed_of_elem. exists (_get_format py). by rewrite Hfmt. }
  assert (_process_soup_loop py py_eval soup
          = Ok (retrieved_of soup (retrieve py py_eval) ∅,
                failed_of soup (retrieve py py_eval))) as Hloop.
  { by apply process_soup_loop_Ok. }
  split; [|split; [done|split; [|split; [done|]]]].
  - apply process_soup_Ok. eexists. split; [exact Hloop|].
    destruct (failed_of soup (retrieve py py_eval)); [|done].
    by apply elem_of_nil in Hfailed.
  - rewrite (retrieved_of_lookup soup _ ∅ _ _ Hnd Hfin). by rewrite Hfmt.
  - intros sibling a soup'. split.
    + intros tag func Hin Hne.
      assert (func soup = func soup') as Heq.
      { symmetry. by apply (other_fields_ignore_type_label py py_eval _ _ _ _ tag). }
      split; [done|]. rewrite <- Heq. split.
      * by apply retrieved_of_lookup.
      * by apply failed_of_own.
    + intros success' retrieved' tag (f' & Hloop' & _)%process_soup_Ok Hne.
      apply process_soup_loop_Ok in Hloop' as (_ & -> & _).
      destruct (decide (tag ∈ (retrieve py py_eval).*1)) as [Hk|Hk].
      * apply list_elem_of_fmap in Hk as ([t func] & -> & Hin). cbn [fst] in *.
        rewrite !(retrieved_of_lookup _ _ ∅ _ _ Hnd Hin). unfold soup', soup.
        by rewrite (other_fields_ignore_type_label py py_eval pre post sibling a
                      t func Hin Hne).
      * by rewrite !retrieved_of_notin.
Qed.

Lemma missing_type_label_is_isolated_witness :
  find_span_string (Sample.page_head ++ Sample.page_tail (TextSibling " 26 ")
                      "Apr 3, 2015 to ?")%list "Type:" = None /\
  exists retrieved failed_tags,
    _process_soup Sample.python (Sample.py_eval Sample.get_date)
      (Sample.page_head ++ Sample.page_tail (TextSibling " 26 ")
         "Apr 3, 2015 to ?")%list = Ok (false, retrieved) /\
    _process_soup_loop Sample.python (Sample.py_eval Sample.get_date)
      (Sample.page_head ++ Sample.page_tail (TextSibling " 26 ")
         "Apr 3, 2015 to ?")%list = Ok (retrieved, failed_tags) /\
    retrieved !! "format" = Some PyNone /\
    "format" ∈ failed_tags /\
    forall tag, tag <> "format" ->
      retrieved !! tag
      = Sample.record (Sample.page (TextSibling " 26 ") "Apr 3, 2015 to ?")
          !! tag.
Proof.
  split; [reflexivity|].
  destruct (missing_type_label_is_isolated Sample.python (Sample.py_eval Sample.get_date)
              Sample.page_head
              (Sample.page_tail (TextSibling " 26 ") "Apr 3, 2015 to ?"))
    as (retrieved & failed_tags & Hp & Hl & Hf & Hin & Hframe).
  - reflexivity.
  - intros tag func Hin _. unfold retrieve in Hin.
    repeat (apply elem_of_cons in Hin as [Hin|Hin]);
      try (by apply elem_of_nil in Hin); simplify_eq; reflexivity.
  - exists retrieved, failed_tags. repeat (split; [assumption|]).
    intros tag Hne.
    apply (proj2 (Hframe NoSibling (Sample.link "TV")) true); [|exact Hne].
    vm_compute. reflexivity.
Defined.

(** ** The extraction functions one by one *)

Lemma quoted_parse_error (tag before text after : string) :
  exists msg, @Raise pyval (ParseError tag (quoted before text after))
              = Raise (ParseError tag msg).
Proof. by eexists. Qed.

Lemma get_episodes_text py soup pretag text :
  find_span_string soup "Episodes:" = Some pretag ->
  next_sibling pretag = TextSibling text ->
  _get_episodes py soup =
    let episodes_text := PyStr.lower py (PyStr.strip py text) in
    if String.eqb episodes_text "unknown" then Ok (PyInt 0)
    else match PyStr.int py episodes_text with
         | Some n => Ok (PyInt n)
         | None =>
             Raise (ParseError "episodes"
                      (quoted "Unable to convert text " episodes_text
                         " to int"))
         end.
Proof.
  intros Hfind Hsib. unfold _get_episodes, next_sibling_strip.
  by rewrite Hfind, Hsib.
Qed.

(** C5, as the code has it.  With an [Episodes:] label followed by a text
    node, the episodes extraction returns [0] when the trimmed,
    lowercased text is [unknown], the integer when that text reads as one
    ([12] gives 12), and raises a parse error otherwise; without the
    label it raises a missing-tag error. *)
Theorem get_episodes_spec py soup :
  (find_span_string soup "Episodes:" = None ->
   _get_episodes py soup = Raise (MissingTagError "episodes")) /\
  (forall pretag text,
     find_span_string soup "Episodes:" = Some pretag ->
     next_sibling pretag = TextSibling text ->
     let episodes_text := PyStr.lower py (PyStr.strip py text) in
     (episodes_text = "unknown" -> _get_episodes py soup = Ok (PyInt 0)) /\
     (forall n, PyStr.int py episodes_text = Some n ->
        _get_episodes py soup = Ok (PyInt n)) /\
     (episodes_text <> "unknown" -> PyStr.int py episodes_text = None ->
        exists msg,
          _get_episodes py soup = Raise (ParseError "episodes" msg)) /\
     (text = "12" -> _get_episodes py soup = Ok (PyInt 12))).
Proof.
  split.
  - intros Hnone. unfold _get_episodes. by rewrite Hnone.
  - intros pretag text Hfind Hsib episodes_text.
    rewrite (get_episodes_text py soup pretag text Hfind Hsib).
    fold episodes_text. cbv zeta.
    split; [|split; [|split]].
    + intros ->. done.
    + intros n Hn. destruct (String.eqb_spec episodes_text "unknown") as [Hu|_].
      * rewrite Hu in Hn. discriminate Hn.
      * by rewrite Hn.
    + intros Hne Hnone. rewrite Hnone.
      destruct (String.eqb_spec episodes_text "unknown"); [done|].
      apply quoted_parse_error.
    + intros Htext. unfold episodes_text. rewrite Htext. reflexivity.
Qed.

Lemma get_episodes_spec_witness :
  _get_episodes Sample.python Sample.soup = Ok (PyInt 26) /\
  _get_episodes Sample.python Sample.still_airing = Ok (PyInt 0) /\
  (exists msg,
     _get_episodes Sample.python Sample.bad_episodes
     = Raise (ParseError "episodes" msg)) /\
  _get_episodes Sample.python [] = Raise (MissingTagError "episodes").
Proof.
  split; [|split; [|split]].
  - destruct (proj2 (get_episodes_spec Sample.python Sample.soup)
                (label_span "Episodes:" (TextSibling " 26 ") None) " 26 "
                eq_refl eq_refl) as (_ & Hn & _).
    apply Hn. reflexivity.
  - destruct (proj2 (get_episodes_spec Sample.python Sample.still_airing)
                (label_span "Episodes:" (TextSibling "Unknown") None) "Unknown"
                eq_refl eq_refl) as (Hu & _).
    apply Hu. reflexivity.
  - destruct (proj2 (get_episodes_spec Sample.python Sample.bad_episodes)
                (label_span "Episodes:" (TextSibling "abc") None) "abc"
                eq_refl eq_refl) as (_ & _ & He & _).
    apply He; [discriminate | reflexivity].
  - apply (proj1 (get_episodes_spec Sample.python [])). reflexivity.
Defined.

(** C5 read for every document with the label fails when nothing follows
    the label: the extraction raises [AttributeError], which is neither a
    value nor a parse error. *)
Lemma episodes_label_alone_counterexample :
  find_span_string Sample.no_episode_text "Episodes:"
  = Some (label_span "Episodes:" NoSibling None) /\
  _get_episodes Sample.python Sample.no_episode_text = Raise AttributeError /\
  isinstance_ParseError AttributeError = false.
Proof. repeat split; reflexivity. Qed.

Lemma get_airing_status_text py soup pretag text :
  find_span_string soup "Status:" = Some pretag ->
  next_sibling pretag = TextSibling text ->
  _get_airing_status py soup =
    let status_text := PyStr.lower py (PyStr.strip py text) in
    match dict_get airing_status_table status_text with
    | Some (String c s as status) => Ok (PyStr status)
    | _ => Raise (ParseError "status"
                    (quoted "Unable to identify text " status_text
                       EmptyString))
    end.
Proof.
  intros Hfind Hsib. unfold _get_airing_status, next_sibling_strip.
  by rewrite Hfind, Hsib.
Qed.

(** C6, as the code has it.  With a [Status:] label followed by a text
    node, the status extraction returns [Finished Airing] or
    [Currently Airing] when the trimmed text is that status in any letter
    case, and raises a parse error for every other text; without the
    label it raises a missing-tag error. *)
Theorem get_airing_status_spec py soup :
  (find_span_string soup "Status:" = None ->
   _get_airing_status py soup = Raise (MissingTagError "status")) /\
  (forall pretag text,
     find_span_string soup "Status:" = Some pretag ->
     next_sibling pretag = TextSibling text ->
     let status_text := PyStr.lower py (PyStr.strip py text) in
     (status_text = "finished airing" ->
        _get_airing_status py soup = Ok (PyStr "Finished Airing")) /\
     (status_text = "currently airing" ->
        _get_airing_status py soup = Ok (PyStr "Currently Airing")) /\
     (status_text <> "finished airing" ->
      status_text <> "currently airing" ->
        exists msg,
          _get_airing_status py soup = Raise (ParseError "status" msg))).
Proof.
  split.
  - intros Hnone. unfold _get_airing_status. by rewrite Hnone.
  - intros pretag text Hfind Hsib status_text.
    rewrite (get_airing_status_text py soup pretag text Hfind Hsib).
    fold status_text. cbv zeta.
    split; [|split].
    + intros ->. done.
    + intros ->. done.
    + intros Hf Hc. unfold airing_status_table. cbn -[String.eqb].
      destruct (String.eqb_spec "finished airing" status_text); [congruence|].
      destruct (String.eqb_spec "currently airing" status_text); [congruence|].
      apply quoted_parse_error.
Qed.

Lemma get_airing_status_spec_witness :
  _get_airing_status Sample.python Sample.soup
  = Ok (PyStr "Finished Airing") /\
  _get_airing_status Sample.python [] = Raise (MissingTagError "status").
Proof.
  split.
  - destruct (proj2 (get_airing_status_spec Sample.python Sample.soup)
                (label_span "Status:" (TextSibling " Finished Airing ") None)
                " Finished Airing " eq_refl eq_refl) as (Hf & _).
    apply Hf. reflexivity.
  - apply (proj1 (get_airing_status_spec Sample.python [])). reflexivity.
Defined.

(** C6 read for every document with the label fails when nothing follows
    the label: the extraction raises [AttributeError], which is neither
    a status nor a parse error. *)
Lemma status_label_alone_counterexample :
  find_span_string Pages.no_status_text "Status:"
  = Some (label_span "Status:" NoSibling None) /\
  _get_airing_status Sample.python Pages.no_status_text
  = Raise AttributeError /\
  isinstance_ParseError AttributeError = false.
Proof. repeat split; reflexivity. Qed.




(** ** The aired dates *)

Lemma strip_suffix_app (suf a : string) :
  Sample.strip_suffix suf (a +:+ suf) = Some a.
Proof.
  induction a as [|c a IH].
  - rewrite PyStrFacts.append_nil. destruct suf; simpl.
    + done.
    + by rewrite Ascii.eqb_refl, String.eqb_refl.
  - rewrite PyStrFacts.append_cons.
    change (Sample.strip_suffix suf (String c (a +:+ suf))) with
      (if String.eqb (String c (a +:+ suf)) suf then Some EmptyString
       else String c <$> Sample.strip_suffix suf (a +:+ suf)).
    destruct (String.eqb_spec (String c (a +:+ suf)) suf) as [Heq|_].
    + apply (f_equal String.length) in Heq. simpl in Heq.
      rewrite PyStrFacts.app_length in Heq. lia.
    + by rewrite IH.
Qed.

(** The stand-in for [eval] does call [get_date] on a plain literal. *)
Lemma sample_eval_calls_get_date get_date :
  eval_calls_get_date get_date (Sample.py_eval get_date).
Proof.
  intros text Hplain. unfold Sample.py_eval, get_date_call.
  rewrite PyStrFacts.strip_prefix_app, strip_suffix_app. by rewrite Hplain.
Qed.

Lemma convert_get_date get_date py_eval what text :
  eval_calls_get_date get_date py_eval -> plain_literal text = true ->
  match _get_date py_eval text with
  | Ok d => Ok d
  | Raise e =>
      if isinstance_ValueError e
      then Raise (ParseError what (quoted "Cannot process text " text EmptyString))
      else Raise e
  end = parse_date get_date what text.
Proof.
  intros Heval Hplain. unfold _get_date, parse_date.
  rewrite (Heval text Hplain). by destruct (get_date text).
Qed.

Lemma sep_to_nonempty : " to " <> EmptyString.
Proof. done. Qed.

Lemma get_start_date_unfold py py_eval soup pretag text :
  find_span_string soup "Aired:" = Some pretag ->
  next_sibling pretag = TextSibling text ->
  _get_start_date py py_eval soup =
    let start_text :=
      match PyStr.find_sep " to " (PyStr.strip py text) with
      | Some (a, _) => a
      | None => PyStr.strip py text
      end in
    match _get_date py_eval start_text with
    | Ok d => Ok d
    | Raise e =>
        if isinstance_ValueError e
        then Raise (ParseError "airing start date"
                      (quoted "Cannot process text " start_text EmptyString))
        else Raise e
    end.
Proof.
  intros Hfind Hsib. unfold _get_start_date, next_sibling_strip.
  rewrite Hfind, Hsib. unfold mbind, result_bind, str_method. cbv beta iota.
  rewrite (PyStrFacts.split_unfold _ _ sep_to_nonempty).
  by destruct (PyStr.find_sep " to " (PyStr.strip py text)) as [[a rest]|].
Qed.

Lemma get_end_date_unfold py py_eval soup pretag text :
  find_span_string soup "Aired:" = Some pretag ->
  next_sibling pretag = TextSibling text ->
  _get_end_date py py_eval soup =
    let end_text :=
      match PyStr.find_sep " to " (PyStr.strip py text) with
      | Some (_, rest) =>
          match PyStr.find_sep " to " rest with
          | Some (b, _) => b
          | None => rest
          end
      | None => PyStr.strip py text
      end in
    if String.eqb end_text "?" then Ok PyNone
    else
      match _get_date py_eval end_text with
      | Ok d => Ok d
      | Raise e =>
          if isinstance_ValueError e
          then Raise (ParseError "airing end date"
                        (quoted "Cannot process text " end_text EmptyString))
          else Raise e
      end.
Proof.
  intros Hfind Hsib. unfold _get_end_date, next_sibling_strip.
  rewrite Hfind, Hsib. unfold mbind, result_bind. cbv beta iota.
  pose proof (PyStrFacts.contains_find_sep " to " (PyStr.strip py text)) as Hc.
  rewrite (PyStrFacts.split_unfold _ (PyStr.strip py text) sep_to_nonempty).
  destruct (PyStr.find_sep " to " (PyStr.strip py text)) as [[a rest]|].
  - assert (PyStr.contains " to " (PyStr.strip py text) = true) as ->
      by (apply Hc; by eexists).
    rewrite (PyStrFacts.split_unfold _ rest sep_to_nonempty).
    by destruct (PyStr.find_sep " to " rest) as [[b rest']|].
  - destruct (PyStr.contains " to " (PyStr.strip py text)); [|done].
    by destruct (proj1 Hc eq_refl).
Qed.

(** C7, as the code has it.  With an [Aired:] label followed by a text
    node: the start extraction reads the trimmed text up to its first
    separator, the end extraction reads the text between the first and
    the second separator (up to the end when there is one separator); with
    no separator both read the whole trimmed text.  An end text [?] gives
    [None].  A text that is read and is a plain literal is handed to
    [get_date], whose [ValueError] becomes a parse error. *)
Theorem aired_dates_spec get_date py py_eval soup pretag text :
  eval_calls_get_date get_date py_eval ->
  find_span_string soup "Aired:" = Some pretag ->
  next_sibling pretag = TextSibling text ->
  let aired_text := PyStr.strip py text in
  let reads_start t :=
    plain_literal t = true ->
    _get_start_date py py_eval soup = parse_date get_date "airing start date" t in
  let reads_end t :=
    (t = "?" -> _get_end_date py py_eval soup = Ok PyNone) /\
    (t <> "?" -> plain_literal t = true ->
     _get_end_date py py_eval soup = parse_date get_date "airing end date" t) in
  (no_occurrence " to " aired_text ->
   reads_start aired_text /\ reads_end aired_text) /\
  (forall start_text rest,
     first_occurrence " to " aired_text start_text rest ->
     reads_start start_text /\
     (no_occurrence " to " rest -> reads_end rest) /\
     (forall end_text rest',
        first_occurrence " to " rest end_text rest' ->
        reads_end end_text)).
Proof.
  intros Heval Hfind Hsib aired_text reads_start reads_end.
  pose proof (get_start_date_unfold py py_eval soup pretag text Hfind Hsib) as Hs.
  pose proof (get_end_date_unfold py py_eval soup pretag text Hfind Hsib) as He.
  fold aired_text in Hs, He. cbv zeta in Hs, He.
  assert (forall t,
            _get_end_date py py_eval soup =
              (if String.eqb t "?" then Ok PyNone
               else match _get_date py_eval t with
                    | Ok d => Ok d
                    | Raise e =>
                        if isinstance_ValueError e
                        then Raise (ParseError "airing end date"
                                      (quoted "Cannot process text " t EmptyString))
                        else Raise e
                    end) -> reads_end t) as Hend.
  { intros t Ht. unfold reads_end. rewrite Ht. split.
    - intros ->. done.
    - intros Hne Hplain. destruct (String.eqb_spec t "?"); [done|].
      by apply convert_get_date. }
  split.
  - intros Hno%PyStrFacts.find_sep_None. rewrite Hno in Hs, He. split.
    + intros Hplain. rewrite Hs. by apply convert_get_date.
    + by apply Hend.
  - intros start_text rest Hfirst%PyStrFacts.find_sep_first.
    rewrite Hfirst in Hs, He. split; [|split].
    + intros Hplain. rewrite Hs. by apply convert_get_date.
    + intros Hno%PyStrFacts.find_sep_None. rewrite Hno in He. by apply Hend.
    + intros end_text rest' Hsecond%PyStrFacts.find_sep_first.
      rewrite Hsecond in He. by apply Hend.
Qed.

(** What [eval] raises, other than [ValueError], leaves the extraction
    function as it is: a date text that is not a plain literal (a quote in
    it, say) can end in a [SyntaxError] that is no parse error. *)
Lemma get_start_date_eval_error py py_eval soup pretag text e :
  find_span_string soup "Aired:" = Some pretag ->
  next_sibling pretag = TextSibling text ->
  no_occurrence " to " (PyStr.strip py text) ->
  py_eval (get_date_call (PyStr.strip py text)) = Raise e ->
  isinstance_ValueError e = false ->
  _get_start_date py py_eval soup = Raise e.
Proof.
  intros Hfind Hsib Hno%PyStrFacts.find_sep_None Heval He.
  rewrite (get_start_date_unfold py py_eval soup pretag text Hfind Hsib).
  rewrite Hno. cbv zeta. unfold _get_date. by rewrite Heval, He.
Qed.

(** C7 read with the end as all the text after a separator fails on an
    aired text with two separators: the end extraction returns the fourth
    of April, which is neither [None] nor the date parsed from the text
    after a separator, however the text is cut into a start and an end. *)
Lemma aired_second_separator_counterexample :
  _get_end_date Sample.python (Sample.py_eval Sample.get_date) Sample.aired_twice
  = Ok (PyDate (mkDate 2015 4 4)) /\
  forall start_text end_text,
    "Apr 3, 2015 to Apr 4, 2015 to ?" = start_text +:+ " to " +:+ end_text ->
    (if String.eqb end_text "?" then Ok PyNone
     else parse_date Sample.get_date "airing end date" end_text)
    <> Ok (PyDate (mkDate 2015 4 4)).
Proof.
  split; [reflexivity|].
  intros start_text end_text H.
  repeat (destruct start_text as [|? start_text];
          rewrite ?PyStrFacts.append_cons, ?PyStrFacts.append_nil in H;
          [ solve [ discriminate H
                  | simplify_eq; vm_compute; discriminate ]
          | first [ discriminate H | injection H as _ H ] ]).
Qed.

(** The spec's example: [Apr 3, 2015 to ?] gives the third of April 2015
    as the start and [None] as the end. *)
Lemma aired_dates_spec_witness :
  _get_start_date Sample.python (Sample.py_eval Sample.get_date) Sample.still_airing
  = Ok (PyDate (mkDate 2015 4 3)) /\
  _get_end_date Sample.python (Sample.py_eval Sample.get_date) Sample.still_airing
  = Ok PyNone.
Proof.
  pose proof (aired_dates_spec Sample.get_date
                Sample.python (Sample.py_eval Sample.get_date) Sample.still_airing
                (label_span "Aired:" (TextSibling "Apr 3, 2015 to ?") None)
                "Apr 3, 2015 to ?"
                (sample_eval_calls_get_date _) eq_refl eq_refl) as [_ H].
  destruct (H "Apr 3, 2015" "?") as (Hs & He & _).
  { apply PyStrFacts.find_sep_first. reflexivity. }
  split.
  - rewrite Hs; reflexivity.
  - apply He; [apply PyStrFacts.find_sep_None; reflexivity | reflexivity].
Defined.

(** ** The fetcher: [retrieve_anime] *)

Section Fetch.

Variable py : Interpreter.
Variable py_eval : string -> result pyval.
Variable retry_on_fail_get : string -> option Response.
Variable BeautifulSoup : string -> Soup.
Variable utcnow : Z.
Variable id_ref : Z.

(** Retry exhaustion gives the not-found code. *)
Lemma retrieve_anime_exhausted :
  retry_on_fail_get (get_url_from_id_ref id_ref) = None ->
  retrieve_anime py py_eval retry_on_fail_get BeautifulSoup utcnow id_ref
  = Ok (StatusCode 404).
Proof. unfold retrieve_anime. by intros ->. Qed.

(** A response that is not OK is already falsy: the first test answers,
    with the not-found code, whatever the status of the response. *)
Lemma retrieve_anime_not_ok response :
  retry_on_fail_get (get_url_from_id_ref id_ref) = Some response -> Response_ok response = false ->
  retrieve_anime py py_eval retry_on_fail_get BeautifulSoup utcnow id_ref
  = Ok (StatusCode 404).
Proof. unfold retrieve_anime, Response_bool. by intros -> ->. Qed.

(** The pair of dictionaries is returned only for a response that is OK,
    and then no integer is returned. *)
Lemma retrieve_anime_pair retrieval_info info :
  retrieve_anime py py_eval retry_on_fail_get BeautifulSoup utcnow id_ref
  = Ok (RetrievedPair retrieval_info info) ->
  exists response, retry_on_fail_get (get_url_from_id_ref id_ref) = Some response /\ Response_ok response = true.
Proof.
  unfold retrieve_anime, Response_bool.
  destruct (retry_on_fail_get _) as [response|]; [|done].
  destruct (Response_ok response) eqn:Hok; simpl; [|done].
  intros _. by exists response.
Qed.

Lemma retrieve_anime_ok_no_code response code :
  retry_on_fail_get (get_url_from_id_ref id_ref) = Some response -> Response_ok response = true ->
  retrieve_anime py py_eval retry_on_fail_get BeautifulSoup utcnow id_ref
  <> Ok (StatusCode code).
Proof.
  unfold retrieve_anime, Response_bool. intros -> ->. simpl.
  destruct (_process_soup _ _) as [[s r]|e]; unfold mbind, result_bind; done.
Qed.

End Fetch.

(** C4, on a fetch that ends with status 500: [retrieve_anime] returns
    the integer 404, not the status code of the response. *)
Theorem retrieve_anime_server_error py py_eval BeautifulSoup utcnow id_ref :
  retrieve_anime py py_eval Sample.server_error BeautifulSoup utcnow id_ref
  = Ok (StatusCode 404) /\
  Sample.server_error (get_url_from_id_ref id_ref)
  = Some (mkResponse 500 "Internal Server Error") /\
  StatusCode 404 <> StatusCode 500.
Proof. split; [reflexivity | split; [reflexivity | discriminate]]. Qed.

(** ** More on the fetcher *)

Lemma to_int_not_nil (n : Z) :
  Z.to_int n <> Decimal.Pos Decimal.Nil /\
  Z.to_int n <> Decimal.Neg Decimal.Nil.
Proof.
  destruct n as [|p|p]; simpl; split; try discriminate;
    intros [= H]; by apply (Unsigned.to_uint_nonnil p).
Qed.

Lemma format_d_reads_back (n : Z) :
  Z.of_int <$> NilZero.int_of_string (PyStr.format_d n) = Some n.
Proof.
  unfold PyStr.format_d. destruct (to_int_not_nil n) as [Hp Hn].
  rewrite NilZero.isi by done. simpl. by rewrite DecimalZ.of_to.
Qed.

(** X1.  The URL of an identifier is the site prefix followed by the decimal
    writing of the identifier, from which the identifier reads back. *)
Theorem url_reads_back_id_ref (id_ref : Z) :
  exists digits,
    PyStr.strip_prefix "http://myanimelist.net/anime/"
      (get_url_from_id_ref id_ref) = Some digits /\
    Z.of_int <$> NilZero.int_of_string digits = Some id_ref.
Proof.
  exists (PyStr.format_d id_ref). split.
  - unfold get_url_from_id_ref. apply PyStrFacts.strip_prefix_app.
  - apply format_d_reads_back.
Qed.

(** Two identifiers with the same URL are the same. *)
Lemma get_url_from_id_ref_inj (a b : Z) :
  get_url_from_id_ref a = get_url_from_id_ref b -> a = b.
Proof.
  unfold get_url_from_id_ref. intros H%PyStrFacts.app_inv_head.
  pose proof (format_d_reads_back a) as Ha. rewrite H in Ha.
  rewrite format_d_reads_back in Ha. congruence.
Qed.

Lemma process_soup_dom py py_eval soup success retrieved :
  _process_soup py py_eval soup = Ok (success, retrieved) ->
  dom retrieved = list_to_set field_names.
Proof.
  intros (f & Hloop & _)%process_soup_Ok.
  apply process_soup_loop_Ok in Hloop as (_ & -> & _).
  rewrite retrieved_of_dom, retrieve_keys, dom_empty_L.
  by rewrite (left_id_L ∅ (∪)).
Qed.

Lemma process_soup_success py py_eval soup success retrieved :
  _process_soup py py_eval soup = Ok (success, retrieved) ->
  success = true <->
  forall tag func, (tag, func) ∈ retrieve py py_eval ->
    exists v, func soup = Ok v.
Proof.
  intros (f & Hloop & ->)%process_soup_Ok.
  apply process_soup_loop_Ok in Hloop as (_ & _ & ->).
  transitivity (failed_of soup (retrieve py py_eval) = []).
  { by destruct (failed_of soup (retrieve py py_eval)). }
  rewrite failed_of_nil. split.
  - intros H tag func Hin. apply field_failed_false. by apply (H tag func).
  - intros H tag func Hin. apply field_failed_false. by apply (H tag func).
Qed.

Lemma process_soup_never_raises_parse_error py py_eval soup e :
  _process_soup py py_eval soup = Raise e -> isinstance_ParseError e = false.
Proof.
  intros H%process_soup_Raise. unfold _process_soup_loop in H.
  by apply process_items_Raise in H as (_ & _ & _ & _ & _ & _ & _ & ?).
Qed.

Section FetchMore.

Variable py : Interpreter.
Variable py_eval : string -> result pyval.
Variable retry_on_fail_get : string -> option Response.
Variable BeautifulSoup : string -> Soup.
Variable utcnow : Z.
Variable id_ref : Z.

(** X2.  The only integer that [retrieve_anime] returns is 404, and it returns
    it exactly when the fetch gave nothing or gave a response that is not
    OK. *)
Theorem retrieve_anime_code_is_404 code :
  retrieve_anime py py_eval retry_on_fail_get BeautifulSoup utcnow id_ref
  = Ok (StatusCode code) <->
  code = 404 /\
  (retry_on_fail_get (get_url_from_id_ref id_ref) = None \/
   exists response,
     retry_on_fail_get (get_url_from_id_ref id_ref) = Some response /\
     Response_ok response = false).
Proof.
  unfold retrieve_anime, Response_bool.
  destruct (retry_on_fail_get (get_url_from_id_ref id_ref)) as [response|].
  - destruct (Response_ok response) eqn:Hok; simpl.
    + split.
      * destruct (_process_soup _ _) as [[s r]|e];
          unfold mbind, result_bind; done.
      * intros (_ & [H|(r & [= <-] & H)]); congruence.
    + split.
      * intros [= <-]. split; [done|]. right. by exists response.
      * by intros (-> & _).
  - split.
    + intros [= <-]. split; [done | by left].
    + by intros (-> & _).
Qed.

(** X3.  When [retrieve_anime] returns the pair of dictionaries, the response
    was OK, the retrieval information carries the identifier asked for,
    the time of the clock and the success flag of [_process_soup] on the
    parsed content, the anime information has the nine keys, and the flag
    is true exactly when every extraction function returned a value. *)
Theorem retrieve_anime_pair_spec retrieval_info info :
  retrieve_anime py py_eval retry_on_fail_get BeautifulSoup utcnow id_ref
  = Ok (RetrievedPair retrieval_info info) ->
  exists response,
    retry_on_fail_get (get_url_from_id_ref id_ref) = Some response /\
    Response_ok response = true /\
    _process_soup py py_eval (BeautifulSoup (content response))
    = Ok (info_success retrieval_info, info) /\
    info_id_ref retrieval_info = id_ref /\
    info_scraper_retrieved_at retrieval_info = utcnow /\
    dom info = list_to_set field_names /\
    (info_success retrieval_info = true <->
     forall tag func, (tag, func) ∈ retrieve py py_eval ->
       exists v, func (BeautifulSoup (content response)) = Ok v).
Proof.
  unfold retrieve_anime, Response_bool.
  destruct (retry_on_fail_get (get_url_from_id_ref id_ref)) as [response|];
    [|done].
  destruct (Response_ok response) eqn:Hok; simpl; [|done].
  destruct (_process_soup py py_eval (BeautifulSoup (content response)))
    as [[s r]|e] eqn:Hp; unfold mbind, result_bind; [|done].
  intros [= <- <-]. exists response. simpl.
  do 5 (split; [done|]). split.
  - exact (process_soup_dom py py_eval _ s r Hp).
  - exact (process_soup_success py py_eval _ s r Hp).
Qed.

(** X4.  [retrieve_anime] raises exactly what [_process_soup] raises on the
    parsed content of an OK response; this is never a missing-tag or
    parse error. *)
Theorem retrieve_anime_raises e :
  retrieve_anime py py_eval retry_on_fail_get BeautifulSoup utcnow id_ref
  = Raise e <->
  isinstance_ParseError e = false /\
  exists response,
    retry_on_fail_get (get_url_from_id_ref id_ref) = Some response /\
    Response_ok response = true /\
    _process_soup py py_eval (BeautifulSoup (content response)) = Raise e.
Proof.
  unfold retrieve_anime, Response_bool.
  destruct (retry_on_fail_get (get_url_from_id_ref id_ref)) as [response|].
  - destruct (Response_ok response) eqn:Hok; simpl.
    + destruct (_process_soup py py_eval (BeautifulSoup (content response)))
        as [[s r]|e'] eqn:Hp; unfold mbind, result_bind.
      * split; [done|]. intros (_ & r' & [= <-] & _ & H). congruence.
      * split.
        -- intros [= ->]. split.
           ++ by apply (process_soup_never_raises_parse_error py py_eval _ _ Hp).
           ++ by exists response.
        -- intros (_ & r' & [= <-] & _ & H). congruence.
    + split; [done|]. intros (_ & r' & [= <-] & H & _). congruence.
  - split; [done|]. by intros (_ & r' & H & _).
Qed.

End FetchMore.

Lemma retrieve_anime_code_is_404_witness :
  retrieve_anime Sample.python (Sample.py_eval Sample.get_date) Pages.exhausted
    (Pages.parse Sample.soup) 0 1 = Ok (StatusCode 404) /\
  404 = 404 /\
  (Pages.exhausted (get_url_from_id_ref 1) = None \/
   exists response,
     Pages.exhausted (get_url_from_id_ref 1) = Some response /\
     Response_ok response = false).
Proof.
  split; [reflexivity|].
  apply (proj1 (retrieve_anime_code_is_404 Sample.python (Sample.py_eval Sample.get_date)
                  Pages.exhausted (Pages.parse Sample.soup) 0 1 404)).
  reflexivity.
Defined.

Lemma retrieve_anime_pair_spec_witness :
  exists response,
    Pages.served (get_url_from_id_ref 1) = Some response /\
    Response_ok response = true /\
    _process_soup Sample.python (Sample.py_eval Sample.get_date)
      (Pages.parse Sample.bad_episodes (content response))
    = Ok (false, Sample.record Sample.bad_episodes) /\
    1 = 1 /\ 1478217600 = 1478217600 /\
    dom (Sample.record Sample.bad_episodes) = list_to_set field_names /\
    (false = true <->
     forall tag func,
       (tag, func) ∈ retrieve Sample.python (Sample.py_eval Sample.get_date) ->
       exists v,
         func (Pages.parse Sample.bad_episodes (content response)) = Ok v).
Proof.
  apply (retrieve_anime_pair_spec Sample.python (Sample.py_eval Sample.get_date)
           Pages.served (Pages.parse Sample.bad_episodes) 1478217600 1
           (mkRetrievalInfo false 1478217600 1)
           (Sample.record Sample.bad_episodes)).
  vm_compute. reflexivity.
Defined.

Lemma retrieve_anime_raises_witness :
  Pages.fetch Sample.no_episode_text 1 = Raise AttributeError /\
  isinstance_ParseError AttributeError = false /\
  exists response,
    Pages.served (get_url_from_id_ref 1) = Some response /\
    Response_ok response = true /\
    _process_soup Sample.python (Sample.py_eval Sample.get_date)
      (Pages.parse Sample.no_episode_text (content response))
    = Raise AttributeError.
Proof.
  split; [reflexivity|].
  apply (proj1 (retrieve_anime_raises Sample.python (Sample.py_eval Sample.get_date)
                  Pages.served (Pages.parse Sample.no_episode_text)
                  1478217600 1 AttributeError)).
  reflexivity.
Defined.

(** ** More on the extraction functions and the table *)

Ltac in_table := unfold retrieve; repeat (first [by left | right]).

Ltac each_label H :=
  repeat (apply elem_of_cons in H as [H|H]);
  try (by apply elem_of_nil in H); simplify_eq.

Lemma find_first (P : Span -> bool) (pre post : Soup) (sp : Span) :
  Forall (fun x => P x = false) pre -> P sp = true ->
  List.find P (pre ++ sp :: post)%list = Some sp.
Proof.
  intros Hpre Hsp. induction Hpre as [|x pre Hx _ IH]; simpl.
  - by rewrite Hsp.
  - by rewrite Hx.
Qed.

Lemma find_None_Forall (P : Span -> bool) (soup : Soup) :
  List.find P soup = None <-> Forall (fun x => P x = false) soup.
Proof.
  induction soup as [|x soup IH]; simpl.
  - split; [by constructor | done].
  - destruct (P x) eqn:Hx.
    + split; [done|]. intros [? _]%Forall_cons. congruence.
    + rewrite IH. split; [by constructor | by intros [_ ?]%Forall_cons].
Qed.

(** What the loop leaves for one field of the table. *)
Lemma loop_field py py_eval soup retrieved failed_tags tag func :
  _process_soup_loop py py_eval soup = Ok (retrieved, failed_tags) ->
  (tag, func) ∈ retrieve py py_eval ->
  handled (func soup) = true /\
  retrieved !! tag = Some (field_value (func soup)) /\
  (tag ∈ failed_tags <-> field_failed (func soup) = true).
Proof.
  intros (Hall & -> & ->)%process_soup_loop_Ok Hin. split; [|split].
  - rewrite Forall_forall in Hall. by apply (Hall (tag, func)).
  - by apply retrieved_of_lookup; [apply retrieve_NoDup|].
  - by apply failed_of_own; [apply retrieve_NoDup|].
Qed.

Lemma unhandled_no_pair py py_eval soup tag func success retrieved :
  (tag, func) ∈ retrieve py py_eval -> handled (func soup) = false ->
  _process_soup py py_eval soup <> Ok (success, retrieved).
Proof.
  intros Hin Hh (f & Hloop & _)%process_soup_Ok.
  destruct (loop_field _ _ _ _ _ _ _ Hloop Hin) as (Hh' & _). congruence.
Qed.

(** X5.  [_get_name] takes the first span whose [itemprop] is [name] and
    returns its text, [None] when that span has no single text; it raises
    only when no span has the attribute, and then a missing-tag error. *)
Theorem get_name_first_title soup :
  (forall e, _get_name soup = Raise e ->
     e = MissingTagError "name" /\
     Forall (fun sp => span_itemprop sp <> Some "name") soup) /\
  (forall pre sp post,
     soup = (pre ++ sp :: post)%list ->
     Forall (fun sp' => span_itemprop sp' <> Some "name") pre ->
     span_itemprop sp = Some "name" ->
     _get_name soup = Ok (title_value sp)).
Proof.
  split.
  - intros e. unfold _get_name, find_span_itemprop.
    destruct (List.find _ soup) as [tag|] eqn:Hfind.
    + by destruct (span_string tag).
    + intros [= <-]. split; [done|].
      apply find_None_Forall in Hfind.
      eapply Forall_impl; [exact Hfind|]. simpl.
      intros sp Hsp. by apply bool_decide_eq_false in Hsp.
  - intros pre sp post -> Hpre Hsp. unfold _get_name, find_span_itemprop.
    rewrite find_first.
    + unfold title_value. by destruct (span_string sp).
    + eapply Forall_impl; [exact Hpre|]. simpl.
      intros x Hx. by apply bool_decide_eq_false.
    + by apply bool_decide_eq_true.
Qed.

Lemma get_name_first_title_witness :
  _get_name Pages.two_titles = Ok (PyStr "Cowboy Bebop") /\
  (forall e, _get_name [] = Raise e ->
     e = MissingTagError "name" /\
     Forall (fun sp => span_itemprop sp <> Some "name") []).
Proof.
  split.
  - apply (proj2 (get_name_first_title Pages.two_titles)
             [label_span "English:" (TextSibling "Bebop") None]
             (Sample.title_span "Cowboy Bebop")
             [Sample.title_span "Other"]).
    + reflexivity.
    + repeat constructor. discriminate.
    + reflexivity.
  - exact (proj1 (get_name_first_title [])).
Defined.

Lemma failed_of_sublist soup items :
  sublist (failed_of soup items) (items.*1).
Proof.
  induction items as [|[t g] items IH]; simpl; [constructor|].
  destruct (field_failed (g soup)).
  - by apply sublist_skip.
  - by apply sublist_cons.
Qed.

Lemma optional_name_value py soup :
  (handled (_get_english_name py soup) = true ->
   field_failed (_get_english_name py soup) = false) /\
  (handled (_get_japanese_name py soup) = true ->
   field_failed (_get_japanese_name py soup) = false).
Proof.
  unfold _get_english_name, _get_japanese_name, next_sibling_strip.
  split.
  - destruct (find_span_string soup "English:") as [pretag|]; [|done].
    by destruct (next_sibling pretag) as [| |[|]].
  - destruct (find_span_string soup "Japanese:") as [pretag|]; [|done].
    by destruct (next_sibling pretag) as [| |[|]].
Qed.

(** X6.  The failure list names failed fields in the order of the table, each
    once, and never names [name_english] or [name_japanese]: those two
    functions raise no error of the parsing domain. *)
Theorem failed_tags_in_table_order py py_eval soup retrieved failed_tags :
  _process_soup_loop py py_eval soup = Ok (retrieved, failed_tags) ->
  sublist failed_tags failable_fields /\
  NoDup failed_tags /\
  ("name_english" ∉ failed_tags) /\ ("name_japanese" ∉ failed_tags).
Proof.
  intros Hloop.
  assert (sublist failed_tags failable_fields) as Hsub.
  { destruct (loop_field _ _ _ _ _ "name_english" (_get_english_name py) Hloop)
      as (He & _); [in_table|].
    destruct (loop_field _ _ _ _ _ "name_japanese" (_get_japanese_name py) Hloop)
      as (Hj & _); [in_table|].
    apply (proj1 (optional_name_value py soup)) in He.
    apply (proj2 (optional_name_value py soup)) in Hj.
    apply process_soup_loop_Ok in Hloop as (_ & _ & ->).
    unfold retrieve. cbn [failed_of fst snd]. rewrite He, Hj.
    apply (failed_of_sublist soup
             [("name", _get_name); ("format", (_get_format py));
              ("episodes", (_get_episodes py));
              ("airing_status", (_get_airing_status py));
              ("airing_started", _get_start_date py py_eval);
              ("airing_finished", _get_end_date py py_eval);
              ("airing_premiere", (_get_airing_premiere py))]). }
  assert (NoDup failable_fields) as Hnd
    by (apply (bool_decide_unpack _); by vm_compute).
  split; [done|]. split; [by eapply sublist_NoDup|].
  split; intros Hin; apply (elem_of_sublist _ _ _ Hin) in Hsub;
    unfold failable_fields in Hsub; each_label Hsub.
Qed.

Lemma failed_tags_in_table_order_witness :
  sublist (Sample.failures []) failable_fields /\
  NoDup (Sample.failures []) /\
  ("name_english" ∉ Sample.failures []) /\
  ("name_japanese" ∉ Sample.failures []).
Proof.
  apply (failed_tags_in_table_order Sample.python (Sample.py_eval Sample.get_date) []
           (Sample.record [])).
  vm_compute. reflexivity.
Defined.

(** ** The values in the record *)

(** X7.  In a returned record, [name_english] and [name_japanese] hold
    what follows their label: the trimmed text of a text node, or, after
    an element with a [<strip>] element inside, the list of that
    element's elements, which is no text and no failure. *)
Theorem optional_names_hold_what_follows
    py py_eval soup success retrieved tag label pretag :
  _process_soup py py_eval soup = Ok (success, retrieved) ->
  (tag, label) ∈ [("name_english", "English:");
                  ("name_japanese", "Japanese:")] ->
  find_span_string soup label = Some pretag ->
  (forall text, next_sibling pretag = TextSibling text ->
     retrieved !! tag = Some (PyStr (PyStr.strip py text))) /\
  (forall tags, next_sibling pretag = TagSibling (Some tags) ->
     retrieved !! tag = Some (PyResultSet tags)).
Proof.
  intros (f & Hloop & _)%process_soup_Ok Hin Hfind.
  assert (exists func,
            (tag, func) ∈ retrieve py py_eval /\
            func soup =
              (text ← next_sibling_strip py pretag; Ok (stripped_value text)))
    as (func & Hret & Hfunc).
  { each_label Hin; eexists; (split; [in_table|]);
      cbv beta delta [_get_english_name _get_japanese_name];
      by rewrite Hfind. }
  destruct (loop_field _ _ _ _ _ _ _ Hloop Hret) as (_ & -> & _).
  rewrite Hfunc. unfold next_sibling_strip. split.
  - by intros text ->.
  - by intros tags ->.
Qed.

Lemma optional_names_hold_what_follows_witness :
  Sample.process Pages.strip_element
  = Ok (false, Sample.record Pages.strip_element) /\
  Sample.record Pages.strip_element !! "name_english"
  = Some (PyResultSet ["b"; "i"]).
Proof.
  assert (Sample.process Pages.strip_element
          = Ok (false, Sample.record Pages.strip_element)) as H
    by (vm_compute; reflexivity).
  split; [exact H|].
  apply (proj2 (optional_names_hold_what_follows _ _ _ _ _
                  "name_english" "English:"
                  (label_span "English:" (TagSibling (Some ["b"; "i"])) None)
                  H ltac:(by left) eq_refl)).
  reflexivity.
Defined.

Lemma get_episodes_value py soup v :
  _get_episodes py soup = Ok v -> exists n, v = PyInt n.
Proof.
  unfold _get_episodes, next_sibling_strip.
  destruct (find_span_string soup "Episodes:") as [pretag|]; [|done].
  destruct (next_sibling pretag) as [|text|[tags|]]; try done.
  unfold mbind, result_bind, str_method.
  destruct (String.eqb _ "unknown"); [intros [= <-]; by eexists|].
  destruct (PyStr.int py _); [|done]. intros [= <-]. by eexists.
Qed.

Lemma get_airing_status_value py soup v :
  _get_airing_status py soup = Ok v ->
  v = PyStr "Finished Airing" \/ v = PyStr "Currently Airing".
Proof.
  unfold _get_airing_status, next_sibling_strip.
  destruct (find_span_string soup "Status:") as [pretag|]; [|done].
  destruct (next_sibling pretag) as [|text|[tags|]]; try done.
  unfold mbind, result_bind, str_method, airing_status_table. cbn -[String.eqb].
  destruct (String.eqb "finished airing" _); [intros [= <-]; by left|].
  destruct (String.eqb "currently airing" _); [intros [= <-]; by right|].
  done.
Qed.

Lemma get_format_value py soup v :
  _get_format py soup = Ok v -> exists t, v = PyStr t.
Proof.
  unfold _get_format, find_next_a_string.
  destruct (find_span_string soup "Type:") as [pretag|]; [|done].
  destruct (find_next_a pretag) as [a|]; [|done].
  destruct (a_string a); [|done]. intros [= <-]. by eexists.
Qed.

Lemma get_airing_premiere_value py soup v :
  _get_airing_premiere py soup = Ok v ->
  v = PyNone \/
  exists y season,
    v = PyTuple (PyInt y) (PyStr season) /\ season ∈ canonical_seasons.
Proof.
  unfold _get_airing_premiere, find_next_a_string.
  destruct (find_span_string soup "Premiered:") as [pretag|];
    [|intros [= <-]; by left].
  destruct (find_next_a pretag) as [a|]; [|done].
  destruct (a_string a) as [s|]; [|done].
  unfold mbind at 1, result_bind at 1.
  destruct (PyStr.split " " (PyStr.lower py s)) as [|season [|year [|? ?]]];
    try done.
  unfold mbind, result_bind.
  destruct (String.eqb season "fall").
  - destruct (PyStr.int py year) as [y|]; [|done]. intros [= <-]. right.
    exists y, "autumn". split; [done|].
    unfold canonical_seasons. repeat (first [by left | right]).
  - destruct (bool_decide (season ∈ canonical_seasons)) eqn:Hs; [|done].
    apply bool_decide_eq_true in Hs.
    destruct (PyStr.int py year) as [y|]; [|done]. intros [= <-]. right.
    by exists y, season.
Qed.

(** X8.  In a returned record, [format], [episodes] and [airing_status] are
    [None] exactly when the field is in the failure list; otherwise
    [format] is a text, [episodes] an integer and [airing_status] one of
    the two status names.  [airing_premiere] is [None] or a pair of a
    year and one of the four season names. *)
Theorem typed_fields py py_eval soup retrieved failed_tags :
  _process_soup_loop py py_eval soup = Ok (retrieved, failed_tags) ->
  (("format" ∈ failed_tags /\ retrieved !! "format" = Some PyNone) \/
   (("format" ∉ failed_tags) /\
    exists t, retrieved !! "format" = Some (PyStr t))) /\
  (("episodes" ∈ failed_tags /\ retrieved !! "episodes" = Some PyNone) \/
   (("episodes" ∉ failed_tags) /\
    exists n, retrieved !! "episodes" = Some (PyInt n))) /\
  (("airing_status" ∈ failed_tags /\
    retrieved !! "airing_status" = Some PyNone) \/
   (("airing_status" ∉ failed_tags) /\
    (retrieved !! "airing_status" = Some (PyStr "Finished Airing") \/
     retrieved !! "airing_status" = Some (PyStr "Currently Airing")))) /\
  (retrieved !! "airing_premiere" = Some PyNone \/
   exists y season,
     retrieved !! "airing_premiere" = Some (PyTuple (PyInt y) (PyStr season))
     /\ season ∈ canonical_seasons).
Proof.
  intros Hloop.
  destruct (loop_field _ _ _ _ _ "format" (_get_format py) Hloop)
    as (_ & Hf & Hff); [in_table|].
  destruct (loop_field _ _ _ _ _ "episodes" (_get_episodes py) Hloop)
    as (_ & He & Hef); [in_table|].
  destruct (loop_field _ _ _ _ _ "airing_status" (_get_airing_status py) Hloop)
    as (_ & Hs & Hsf); [in_table|].
  destruct (loop_field _ _ _ _ _ "airing_premiere" (_get_airing_premiere py) Hloop)
    as (_ & Hp & _); [in_table|].
  rewrite Hf, He, Hs, Hp, Hff, Hef, Hsf. clear Hf He Hs Hp Hff Hef Hsf.
  split; [|split; [|split]].
  - destruct (_get_format py soup) as [v|e] eqn:H; simpl; [|by left].
    right. split; [done|].
    destruct (get_format_value py soup v H) as [t ->]. by exists t.
  - destruct (_get_episodes py soup) as [v|e] eqn:H; simpl; [|by left].
    right. split; [done|].
    destruct (get_episodes_value py soup v H) as [n ->]. by exists n.
  - destruct (_get_airing_status py soup) as [v|e] eqn:H; simpl; [|by left].
    right. split; [done|].
    destruct (get_airing_status_value py soup v H) as [-> | ->];
      [by left | by right].
  - destruct (_get_airing_premiere py soup) as [v|e] eqn:H; simpl; [|by left].
    destruct (get_airing_premiere_value py soup v H)
      as [-> | (y & season & -> & Hin)]; [by left|].
    right. by exists y, season.
Qed.

Lemma typed_fields_witness :
  _process_soup_loop Sample.python (Sample.py_eval Sample.get_date) Sample.bad_episodes
  = Ok (Sample.record Sample.bad_episodes,
        Sample.failures Sample.bad_episodes) /\
  (("episodes" ∈ Sample.failures Sample.bad_episodes /\
    Sample.record Sample.bad_episodes !! "episodes" = Some PyNone) \/
   (("episodes" ∉ Sample.failures Sample.bad_episodes) /\
    exists n, Sample.record Sample.bad_episodes !! "episodes"
              = Some (PyInt n))).
Proof.
  assert (_process_soup_loop Sample.python (Sample.py_eval Sample.get_date)
            Sample.bad_episodes
          = Ok (Sample.record Sample.bad_episodes,
                Sample.failures Sample.bad_episodes)) as H
    by (vm_compute; reflexivity).
  split; [exact H|].
  exact (proj1 (proj2 (typed_fields _ _ _ _ _ H))).
Defined.

(** ** Markup that stops the extraction, and markup that fails a field *)

(** X9.  A label that is there without a text node after it stops the whole
    extraction: the function of the field raises [AttributeError] or
    [TypeError], which the table does not catch, and [_process_soup]
    returns no pair.  The one exception is an element with a [<strip>]
    element inside after [English:] or [Japanese:]. *)
Theorem label_without_text_aborts py py_eval soup tag label pretag :
  (tag, label) ∈ sibling_labels ->
  find_span_string soup label = Some pretag ->
  (forall text, next_sibling pretag <> TextSibling text) ->
  (tag ∈ ["name_english"; "name_japanese"] ->
   forall tags, next_sibling pretag <> TagSibling (Some tags)) ->
  (exists func e,
     (tag, func) ∈ retrieve py py_eval /\ func soup = Raise e /\
     (e = AttributeError \/ e = TypeError)) /\
  (forall success retrieved,
     _process_soup py py_eval soup <> Ok (success, retrieved)).
Proof.
  intros Hin Hfind Htext Hstrip.
  assert (exists func e,
            (tag, func) ∈ retrieve py py_eval /\ func soup = Raise e /\
            (e = AttributeError \/ e = TypeError))
    as (func & e & Hret & Hf & Hk).
  { unfold sibling_labels in Hin.
    each_label Hin; eexists;
      destruct (next_sibling pretag) as [|text|[tags|]] eqn:Hsib;
      try (exfalso; exact (Htext text eq_refl));
      try (exfalso; eapply Hstrip;
           [solve [repeat (first [by left | right])] | reflexivity]);
      eexists; (split; [in_table|]);
      cbv beta delta [_get_english_name _get_japanese_name _get_episodes
                      _get_airing_status _get_start_date _get_end_date
                      next_sibling_strip];
      rewrite Hfind, Hsib; (split; [reflexivity|]);
      first [by left | by right]. }
  split; [by exists func, e|].
  intros success retrieved. apply (unhandled_no_pair _ _ _ tag func); [done|].
  unfold handled. rewrite Hf. by destruct Hk as [-> | ->].
Qed.

Lemma label_without_text_aborts_witness :
  (exists func e,
     ("episodes", func)
     ∈ retrieve Sample.python (Sample.py_eval Sample.get_date) /\
     func Sample.no_episode_text = Raise e /\
     (e = AttributeError \/ e = TypeError)) /\
  (forall success retrieved,
     Sample.process Sample.no_episode_text <> Ok (success, retrieved)).
Proof.
  apply (label_without_text_aborts Sample.python
           (Sample.py_eval Sample.get_date)
           Sample.no_episode_text "episodes" "Episodes:"
           (label_span "Episodes:" NoSibling None)).
  - unfold sibling_labels. repeat (first [by left | right]).
  - reflexivity.
  - discriminate.
  - discriminate.
Defined.

(** X10.  A [Type:] or [Premiered:] label with no link after it, or with a link
    that has no single text, stops the whole extraction with an
    [AttributeError]. *)
Theorem label_without_link_aborts py py_eval soup tag label pretag :
  (tag, label) ∈ link_labels ->
  find_span_string soup label = Some pretag ->
  (find_next_a pretag = None \/
   exists a, find_next_a pretag = Some a /\ a_string a = None) ->
  (exists func,
     (tag, func) ∈ retrieve py py_eval /\ func soup = Raise AttributeError) /\
  (forall success retrieved,
     _process_soup py py_eval soup <> Ok (success, retrieved)).
Proof.
  intros Hin Hfind Hlink.
  assert (find_next_a_string pretag = Raise AttributeError) as He.
  { unfold find_next_a_string.
    destruct Hlink as [-> | (a & -> & ->)]; done. }
  assert (exists func, (tag, func) ∈ retrieve py py_eval /\
                       func soup = Raise AttributeError)
    as (func & Hret & Hf).
  { unfold link_labels in Hin.
    each_label Hin; eexists; (split; [in_table|]);
      cbv beta delta [_get_format _get_airing_premiere];
      by rewrite Hfind, He. }
  split; [by exists func|].
  intros success retrieved. apply (unhandled_no_pair _ _ _ tag func); [done|].
  unfold handled. by rewrite Hf.
Qed.

Lemma label_without_link_aborts_witness :
  (exists func,
     ("format", func) ∈ retrieve Sample.python (Sample.py_eval Sample.get_date) /\
     func Pages.no_link = Raise AttributeError) /\
  (forall success retrieved,
     Sample.process Pages.no_link <> Ok (success, retrieved)).
Proof.
  apply (label_without_link_aborts Sample.python (Sample.py_eval Sample.get_date)
           Pages.no_link "format" "Type:"
           (label_span "Type:" NoSibling None)).
  - unfold link_labels. by left.
  - reflexivity.
  - by left.
Defined.

(** X11.  A premiere text that does not split at the space into exactly two
    pieces stops the whole extraction: the unpacking raises [ValueError],
    which is no parse error. *)
Theorem premiere_not_two_pieces_aborts py py_eval soup pretag a text :
  find_span_string soup "Premiered:" = Some pretag ->
  find_next_a pretag = Some a -> a_string a = Some text ->
  length (PyStr.split " " (PyStr.lower py text)) <> 2%nat ->
  _get_airing_premiere py soup = Raise ValueError /\
  (forall success retrieved,
     _process_soup py py_eval soup <> Ok (success, retrieved)).
Proof.
  intros Hfind Ha Hs Hlen.
  assert (_get_airing_premiere py soup = Raise ValueError) as Hf.
  { unfold _get_airing_premiere, find_next_a_string.
    rewrite Hfind, Ha, Hs. unfold mbind at 1, result_bind at 1.
    destruct (PyStr.split " " (PyStr.lower py text)) as [|? [|? [|? ?]]];
      simpl in Hlen; done. }
  split; [done|]. intros success retrieved.
  apply (unhandled_no_pair _ _ _ "airing_premiere" (_get_airing_premiere py));
    [in_table|].
  unfold handled. by rewrite Hf.
Qed.

Lemma premiere_not_two_pieces_aborts_witness :
  _get_airing_premiere Sample.python Pages.season_only = Raise ValueError /\
  (forall success retrieved,
     Sample.process Pages.season_only <> Ok (success, retrieved)).
Proof.
  apply (premiere_not_two_pieces_aborts Sample.python (Sample.py_eval Sample.get_date)
           Pages.season_only
           (label_span "Premiered:" NoSibling (Sample.link "Fall"))
           (mkAnchor (Some "Fall")) "Fall");
    [reflexivity | reflexivity | reflexivity |].
  vm_compute. discriminate.
Defined.

(** X12.  A missing title element, or a missing [Type:], [Episodes:],
    [Status:] or [Aired:] label, fails its field (both date fields for
    [Aired:]): when the loop ends, the field is in the failure list and
    [_process_soup] returns [success = False]. *)
Theorem missing_mandatory_label_fails py py_eval soup retrieved failed_tags :
  _process_soup_loop py py_eval soup = Ok (retrieved, failed_tags) ->
  (find_span_itemprop soup "name" = None ->
   "name" ∈ failed_tags /\
   _process_soup py py_eval soup = Ok (false, retrieved)) /\
  (forall tag label,
     (tag, label) ∈ mandatory_labels ->
     find_span_string soup label = None ->
     tag ∈ failed_tags /\
     _process_soup py py_eval soup = Ok (false, retrieved)).
Proof.
  intros Hloop.
  assert (forall tag, tag ∈ failed_tags ->
            _process_soup py py_eval soup = Ok (false, retrieved)) as Hfalse.
  { intros tag Hin. apply process_soup_Ok. exists failed_tags.
    split; [done|]. destruct failed_tags; [|done].
    by apply elem_of_nil in Hin. }
  assert (forall tag func e,
            (tag, func) ∈ retrieve py py_eval -> func soup = Raise e ->
            tag ∈ failed_tags) as Hfail.
  { intros tag func e Hin He.
    apply (loop_field _ _ _ _ _ _ _ Hloop Hin). by rewrite He. }
  split.
  - intros Hname.
    assert ("name" ∈ failed_tags) as Hin.
    { apply (Hfail "name" _get_name (MissingTagError "name")); [in_table|].
      unfold _get_name. by rewrite Hname. }
    split; [done | by apply (Hfalse "name")].
  - intros tag label Hin Hnone.
    assert (tag ∈ failed_tags) as Htag.
    { unfold mandatory_labels in Hin.
      each_label Hin;
        (eapply Hfail; [in_table|]);
        cbv beta delta [_get_format _get_episodes _get_airing_status
                        _get_start_date _get_end_date];
        by rewrite Hnone. }
    split; [done | by apply (Hfalse tag)].
Qed.

Lemma missing_mandatory_label_fails_witness :
  ("airing_started" ∈ Sample.failures Sample.page_head) /\
  Sample.process Sample.page_head
  = Ok (false, Sample.record Sample.page_head).
Proof.
  apply (proj2 (missing_mandatory_label_fails
                  Sample.python (Sample.py_eval Sample.get_date) Sample.page_head
                  (Sample.record Sample.page_head)
                  (Sample.failures Sample.page_head)
                  ltac:(vm_compute; reflexivity))
           "airing_started" "Aired:").
  - unfold mandatory_labels. repeat (first [by left | right]).
  - reflexivity.
Defined.

(** ** More on the aired dates *)

(** X13.  An aired text with one date and no separator, other than [?], gives
    the same date as start and as end: both functions hand the whole
    trimmed text to [eval]. *)
Theorem single_date_is_start_and_end py py_eval soup pretag text d :
  find_span_string soup "Aired:" = Some pretag ->
  next_sibling pretag = TextSibling text ->
  no_occurrence " to " (PyStr.strip py text) ->
  PyStr.strip py text <> "?" ->
  _get_start_date py py_eval soup = Ok d <-> _get_end_date py py_eval soup = Ok d.
Proof.
  intros Hfind Hsib Hno%PyStrFacts.find_sep_None Hq.
  rewrite (get_start_date_unfold py py_eval soup pretag text Hfind Hsib).
  rewrite (get_end_date_unfold py py_eval soup pretag text Hfind Hsib).
  rewrite Hno. cbv zeta.
  destruct (String.eqb_spec (PyStr.strip py text) "?"); [done|].
  destruct (_get_date py_eval (PyStr.strip py text)) as [v|e]; [done|].
  by destruct (isinstance_ValueError e).
Qed.

Lemma single_date_is_start_and_end_witness :
  _get_start_date Sample.python (Sample.py_eval Sample.get_date) Pages.film
  = Ok (PyDate (mkDate 2001 9 1)) /\
  _get_end_date Sample.python (Sample.py_eval Sample.get_date) Pages.film
  = Ok (PyDate (mkDate 2001 9 1)).
Proof.
  split; [reflexivity|].
  apply (proj1 (single_date_is_start_and_end
                  Sample.python (Sample.py_eval Sample.get_date) Pages.film
                  (label_span "Aired:" (TextSibling " Sep 1, 2001 ") None)
                  " Sep 1, 2001 " (PyDate (mkDate 2001 9 1))
                  eq_refl eq_refl
                  ltac:(apply PyStrFacts.find_sep_None; reflexivity)
                  ltac:(discriminate))).
  reflexivity.
Defined.

Lemma parse_date_not_None get_date what text :
  parse_date get_date what text <> Ok PyNone.
Proof.
  unfold parse_date. destruct (get_date text) as [d|e]; [done|].
  by destruct (isinstance_ValueError e).
Qed.

(** X14.  On an aired text with one separator and plain start and end texts,
    the end date is [None] exactly when the end text is [?], and the
    start date is never [None]. *)
Theorem end_date_is_None_iff_question_mark
    get_date py py_eval soup pretag text start_text end_text :
  eval_calls_get_date get_date py_eval ->
  find_span_string soup "Aired:" = Some pretag ->
  next_sibling pretag = TextSibling text ->
  first_occurrence " to " (PyStr.strip py text) start_text end_text ->
  no_occurrence " to " end_text ->
  plain_literal start_text = true -> plain_literal end_text = true ->
  (_get_end_date py py_eval soup = Ok PyNone <-> end_text = "?") /\
  _get_start_date py py_eval soup <> Ok PyNone.
Proof.
  intros Heval Hfind Hsib Hfirst%PyStrFacts.find_sep_first
         Hno%PyStrFacts.find_sep_None Hps Hpe.
  rewrite (get_start_date_unfold py py_eval soup pretag text Hfind Hsib).
  rewrite (get_end_date_unfold py py_eval soup pretag text Hfind Hsib).
  rewrite Hfirst, Hno. cbv zeta. split.
  - destruct (String.eqb_spec end_text "?") as [->|Hne]; [done|].
    rewrite (convert_get_date get_date py_eval "airing end date" end_text)
      by done.
    split; [|done]. intros H. by apply parse_date_not_None in H.
  - rewrite (convert_get_date get_date py_eval "airing start date"
               start_text) by done.
    apply parse_date_not_None.
Qed.

Lemma end_date_is_None_iff_question_mark_witness :
  (_get_end_date Sample.python (Sample.py_eval Sample.get_date) Sample.still_airing
   = Ok PyNone <-> "?" = "?") /\
  _get_start_date Sample.python (Sample.py_eval Sample.get_date) Sample.still_airing
  <> Ok PyNone.
Proof.
  apply (end_date_is_None_iff_question_mark Sample.get_date
           Sample.python (Sample.py_eval Sample.get_date) Sample.still_airing
           (label_span "Aired:" (TextSibling "Apr 3, 2015 to ?") None)
           "Apr 3, 2015 to ?" "Apr 3, 2015" "?").
  - apply sample_eval_calls_get_date.
  - reflexivity.
  - reflexivity.
  - apply PyStrFacts.find_sep_first. reflexivity.
  - apply PyStrFacts.find_sep_None. reflexivity.
  - reflexivity.
  - reflexivity.
Defined.
